(** * OpenClaw / Agent Lightning bridge: tracer life cycle, reward, HTTP handlers

    A shallow embedding of [src/lightning/bridge/openclaw_integration.py]
    (class [OpenClawLightningTracer]) and of the handlers of
    [src/lightning/bridge/lightning_bridge_service.py].

    - [Py]      : the Python constructs the two files rely on: exceptions and
                  [try/except Exception], truthiness, generators, and
                  [contextlib.contextmanager] with the [with] statement.
    - [Tracer]  : the tracer object, its methods, and the reward arithmetic
                  on binary64 floats.
    - [Bridge]  : the module-level tracer and session registry and the
                  request handlers.

    The tracing backend (agentlightning), the clock and the process
    environment are outside the repository: every method takes a record
    [env] that says how they answer during that call. *)

From Stdlib Require Import ZArith String Floats List Bool Lia.
From stdpp Require Import gmap strings pretty.

#[local] Open Scope Z_scope.
#[local] Open Scope string_scope.
#[local] Open Scope list_scope.

(* ===================================================================== *)
(** ** Python preliminaries *)
(* ===================================================================== *)

Module Py.

(** Exceptions. [except Exception] catches the instances of [Exception];
    [KeyboardInterrupt], [SystemExit], [GeneratorExit] and
    [asyncio.CancelledError] derive from [BaseException] only.  Two
    exceptions are the same object ([is]) when they are equal here. *)
Inductive exc_base := ExceptionSub | BaseOnly.

Record exn := Exn { exn_base : exc_base; exn_type : string; exn_msg : string }.

#[global] Instance exc_base_eq_dec : EqDecision exc_base.
Proof. solve_decision. Defined.

#[global] Instance exn_eq_dec : EqDecision exn.
Proof. solve_decision. Defined.

Definition is_Exception (e : exn) : bool :=
  match exn_base e with ExceptionSub => true | BaseOnly => false end.

Definition RuntimeError (msg : string) : exn := Exn ExceptionSub "RuntimeError" msg.
Definition AttributeError (msg : string) : exn := Exn ExceptionSub "AttributeError" msg.
Definition TypeError (msg : string) : exn := Exn ExceptionSub "TypeError" msg.
Definition ValueError (msg : string) : exn := Exn ExceptionSub "ValueError" msg.
Definition OverflowError (msg : string) : exn := Exn ExceptionSub "OverflowError" msg.
Definition GeneratorExit : exn := Exn BaseOnly "GeneratorExit" "".

(** [str(e)] *)
Definition str_exn (e : exn) : string := exn_msg e.

(** *** Floats ([float] is IEEE binary64) *)

(** Truthiness of a float: [bool(x)] is [x != 0.0]. *)
Definition truthy_float (x : float) : bool := negb (PrimFloat.eqb x PrimFloat.zero).

(** [float(n)] for an [int]: correctly rounded, [OverflowError] beyond the
    range of binary64. *)
Definition float_of_int (n : Z) : exn + float :=
  let f := SF2Prim (binary_normalize 53 1024 n 0 false) in
  if PrimFloat.is_infinity f
  then inl (OverflowError "int too large to convert to float")
  else inr f.

(** [int(x)] for a [float]: truncation towards zero. *)
Definition int_of_float (x : float) : exn + Z :=
  match Prim2SF x with
  | S754_zero _ => inr 0
  | S754_infinity _ => inl (OverflowError "cannot convert float infinity to integer")
  | S754_nan => inl (ValueError "cannot convert float NaN to integer")
  | S754_finite s m e =>
      let mag := if (0 <=? e)%Z then Z.shiftl (Z.pos m) e else Z.shiftr (Z.pos m) (- e) in
      inr (if s then - mag else mag)
  end.

(** *** Strings *)

Definition lower_ascii (c : Ascii.ascii) : Ascii.ascii :=
  let n := Ascii.nat_of_ascii c in
  if ((65 <=? n) && (n <=? 90))%nat then Ascii.ascii_of_nat (n + 32) else c.

(** [s.lower()] *)
Fixpoint lower (s : string) : string :=
  match s with
  | EmptyString => EmptyString
  | String c r => String (lower_ascii c) (lower r)
  end.

(** [s[:n]] *)
Definition take_str (n : nat) (s : string) : string := String.substring 0 n s.

(** *** Computations with state and exceptions *)

Section Monad.
Context {W : Type}.

(** A statement runs from a state and ends normally with a value or
    abruptly with an exception; the state it leaves is kept in both
    cases. *)
Definition M (A : Type) : Type := W -> (exn + A) * W.

Definition ret {A} (a : A) : M A := fun w => (inr a, w).

Definition bind {A B} (m : M A) (k : A -> M B) : M B :=
  fun w => match m w with
           | (inr a, w') => k a w'
           | (inl e, w') => (inl e, w')
           end.

Definition raise {A} (e : exn) : M A := fun w => (inl e, w).

Definition get : M W := fun w => (inr w, w).

Definition modify (f : W -> W) : M unit := fun w => (inr tt, f w).

(** An external call that answers with a value or raises. *)
Definition answer {A} (r : exn + A) : M A :=
  match r with inl e => raise e | inr a => ret a end.

(** An external call that returns nothing or raises. *)
Definition may_raise (r : option exn) : M unit :=
  match r with Some e => raise e | None => ret tt end.

(** [try: m  except Exception as e: h e] *)
Definition try_except {A} (m : M A) (h : exn -> M A) : M A :=
  fun w => match m w with
           | (inl e, w') => if is_Exception e then h e w' else (inl e, w')
           | r => r
           end.

(** [for x in l: f x] *)
Fixpoint for_each {A} (l : list A) (f : A -> M unit) : M unit :=
  match l with
  | [] => ret tt
  | x :: r => bind (f x) (fun _ => for_each r f)
  end.
End Monad.

Arguments M : clear implicits.

Declare Scope py_scope.
Delimit Scope py_scope with py.
Notation "x <- m ;; k" := (bind m (fun x => k))
  (at level 100, m at next level, k at level 200, right associativity) : py_scope.
Notation "m ;; k" := (bind m (fun _ => k))
  (at level 100, k at level 200, only parsing, right associativity) : py_scope.

(** *** Generators *)

Section Generators.
Context {W : Type}.

(** How a suspended generator is resumed: [next(gen)] or
    [gen.throw(value)]. *)
Inductive resume := Next | Throw (value : exn).

(** A generator body runs until it either finishes ([GDone], the caller
    sees [StopIteration]) or reaches a [yield] and waits to be resumed. *)
#[local] Unset Elimination Schemes.
Inductive gen_step :=
| GDone
| GYield (k : resume -> W -> (exn + gen_step) * W).
#[local] Set Elimination Schemes.

Definition gen : Type := M W gen_step.

(** A bare [yield] followed by the end of the body: resumed by [next] the
    body ends, resumed by [throw] the exception leaves the body. *)
Definition gen_yield : gen :=
  ret (GYield (fun r => match r with
                        | Next => ret GDone
                        | Throw e => raise e
                        end)).

(** [try: <body with yields>  except Exception as e: <handler with yields>]
    as the last statement of a generator. *)
Fixpoint try_step (h : exn -> gen) (s : gen_step) : gen_step :=
  match s with
  | GDone => GDone
  | GYield k =>
      GYield (fun r w =>
                match k r w with
                | (inr s', w') => (inr (try_step h s'), w')
                | (inl e, w') => if is_Exception e then h e w' else (inl e, w')
                end)
  end.

Definition gen_try (body : gen) (h : exn -> gen) : gen :=
  fun w => match body w with
           | (inr s, w') => (inr (try_step h s), w')
           | (inl e, w') => if is_Exception e then h e w' else (inl e, w')
           end.

(** Leaving a [with] block: [__exit__(None, None, None)] on normal
    completion; with an exception, [__exit__(type, e, tb)], and [e] goes on
    unless [__exit__] returned a true value. *)
Definition leave_with (cm_exit : option exn -> M W bool) (r : exn + gen_step)
  : M W gen_step :=
  match r with
  | inr s => ret s
  | inl e => bind (cm_exit (Some e)) (fun b => if b : bool then ret GDone else raise e)
  end.

Fixpoint with_step (cm_exit : option exn -> M W bool) (s : gen_step) : gen :=
  match s with
  | GDone => bind (cm_exit None) (fun _ => ret GDone)
  | GYield k =>
      ret (GYield (fun r w =>
                     match k r w with
                     | (inr s', w') => with_step cm_exit s' w'
                     | (inl e, w') => leave_with cm_exit (inl e) w'
                     end))
  end.

(** [with cm: <body with yields>] as the last statement of a generator;
    [cm_enter] is [cm.__enter__()] and [cm_exit] is [cm.__exit__]. *)
Definition gen_with (cm_enter : M W unit) (cm_exit : option exn -> M W bool)
    (body : gen) : gen :=
  bind cm_enter (fun _ w =>
    match body w with
    | (inr s, w') => with_step cm_exit s w'
    | (inl e, w') => leave_with cm_exit (inl e) w'
    end).

(** [gen.close()]: [GeneratorExit] is thrown in at the [yield]. *)
Definition gen_close (k : resume -> M W gen_step) : M W unit :=
  fun w => match k (Throw GeneratorExit) w with
           | (inr GDone, w') => (inr tt, w')
           | (inr (GYield _), w') =>
               (inl (RuntimeError "generator ignored GeneratorExit"), w')
           | (inl e, w') =>
               if decide (e = GeneratorExit) then (inr tt, w') else (inl e, w')
           end.

(** *** [contextlib.contextmanager] *)

(** [_GeneratorContextManager.__enter__]: run the generator to its first
    [yield]. *)
Definition cm_enter (g : gen) : M W (resume -> M W gen_step) :=
  bind g (fun s => match s with
                   | GYield k => ret k
                   | GDone => raise (RuntimeError "generator didn't yield")
                   end).

(** [_GeneratorContextManager.__exit__(typ, value, tb)].  The result
    [true] tells the [with] statement to swallow the exception. *)
Definition cm_exit (k : resume -> M W gen_step) (exc : option exn) : M W bool :=
  match exc with
  | None =>
      fun w => match k Next w with
               | (inr GDone, w') => (inr false, w')
               | (inr (GYield k'), w') =>
                   bind (gen_close k')
                        (fun _ => raise (RuntimeError "generator didn't stop")) w'
               | (inl e, w') => (inl e, w')
               end
  | Some value =>
      fun w => match k (Throw value) w with
               | (inr GDone, w') => (inr true, w')
               | (inl e, w') =>
                   if decide (e = value) then (inr false, w') else (inl e, w')
               | (inr (GYield k'), w') =>
                   bind (gen_close k')
                        (fun _ => raise (RuntimeError "generator didn't stop after throw()")) w'
               end
  end.

(** How a [with] statement ends: its body's value, or normally with the
    body's exception swallowed, or with an exception (through [M]). *)
Inductive with_result (A : Type) := Completed (a : A) | Swallowed (e : exn).

(** [with cm(): body] for a generator-based context manager. *)
Definition with_stmt {A} (g : gen) (body : M W A) : M W (with_result A) :=
  bind (cm_enter g) (fun k w =>
    match body w with
    | (inr a, w') => bind (cm_exit k None) (fun _ => ret (Completed A a)) w'
    | (inl e, w') =>
        bind (cm_exit k (Some e))
             (fun b => if b : bool then ret (Swallowed A e) else raise e) w'
    end).
End Generators.

Arguments gen : clear implicits.
Arguments gen_step : clear implicits.
Arguments Completed {A}.
Arguments Swallowed {A}.

End Py.

(* ===================================================================== *)
(** ** openclaw_integration.py *)
(* ===================================================================== *)

Module Tracer.
Import Py.
#[local] Open Scope py_scope.

(** *** Data *)

(** What [store.start_rollout] returns: [rollout.rollout_id] and
    [rollout.attempt.attempt_id]. *)
Record Rollout := { rollout_id : string; attempt_id : string }.

(** The handle that [tracer.trace_context(...).__aenter__()] returns; as an
    object without [__bool__] or [__len__] it is true in a condition. *)
Inductive trace_ctx := TraceCtx (n : nat).

(** Values that travel in the rollout input and in span attributes. *)
Inductive pyval :=
| PNone
| PBool (b : bool)
| PInt (n : Z)
| PFloat (x : float)
| PStr (s : string).

(** A keyword argument of [trace_tool] is any object; the code only calls
    [str] on it, which returns a string or raises. *)
Record pyobj := { py_str : exn + string }.

(** [dict] with string keys, in insertion order. *)
Definition dict := list (string * pyval).

Fixpoint dict_set (d : dict) (k : string) (v : pyval) : dict :=
  match d with
  | [] => [(k, v)]
  | (k', v') :: r => if String.eqb k' k then (k, v) :: r else (k', v') :: dict_set r k v
  end.

(** [d.update(other)] *)
Definition dict_update (d other : dict) : dict :=
  fold_left (fun acc kv => dict_set acc (fst kv) (snd kv)) other d.

(** The attributes of an [OpenClawLightningTracer] ([logger] apart).
    [tracer] and [store] only record whether the backend object was built. *)
Record OpenClawLightningTracer := {
  enabled : bool;
  tracer : option unit;
  store : option unit;
  current_rollout : option Rollout;
  current_tracer_ctx : option trace_ctx;
  session_start_time : option float;
  tool_call_count : Z;
}.

Definition set_enabled (v : bool) (s : OpenClawLightningTracer) :=
  {| enabled := v; tracer := tracer s; store := store s;
     current_rollout := current_rollout s;
     current_tracer_ctx := current_tracer_ctx s;
     session_start_time := session_start_time s;
     tool_call_count := tool_call_count s |}.

Definition set_tracer (v : option unit) (s : OpenClawLightningTracer) :=
  {| enabled := enabled s; tracer := v; store := store s;
     current_rollout := current_rollout s;
     current_tracer_ctx := current_tracer_ctx s;
     session_start_time := session_start_time s;
     tool_call_count := tool_call_count s |}.

Definition set_store (v : option unit) (s : OpenClawLightningTracer) :=
  {| enabled := enabled s; tracer := tracer s; store := v;
     current_rollout := current_rollout s;
     current_tracer_ctx := current_tracer_ctx s;
     session_start_time := session_start_time s;
     tool_call_count := tool_call_count s |}.

Definition set_current_rollout (v : option Rollout) (s : OpenClawLightningTracer) :=
  {| enabled := enabled s; tracer := tracer s; store := store s;
     current_rollout := v;
     current_tracer_ctx := current_tracer_ctx s;
     session_start_time := session_start_time s;
     tool_call_count := tool_call_count s |}.

Definition set_current_tracer_ctx (v : option trace_ctx) (s : OpenClawLightningTracer) :=
  {| enabled := enabled s; tracer := tracer s; store := store s;
     current_rollout := current_rollout s;
     current_tracer_ctx := v;
     session_start_time := session_start_time s;
     tool_call_count := tool_call_count s |}.

Definition set_session_start_time (v : option float) (s : OpenClawLightningTracer) :=
  {| enabled := enabled s; tracer := tracer s; store := store s;
     current_rollout := current_rollout s;
     current_tracer_ctx := current_tracer_ctx s;
     session_start_time := v;
     tool_call_count := tool_call_count s |}.

Definition set_tool_call_count (v : Z) (s : OpenClawLightningTracer) :=
  {| enabled := enabled s; tracer := tracer s; store := store s;
     current_rollout := current_rollout s;
     current_tracer_ctx := current_tracer_ctx s;
     session_start_time := session_start_time s;
     tool_call_count := v |}.

(** *** The outside world *)

Inductive level := DEBUG | INFO | WARNING | ERROR.

(** What the tracer does to its collaborators, in order.  [EvWork] marks a
    run of the code wrapped by [trace_tool]. *)
Inductive event :=
| EvStartRollout (input : dict)
| EvLifespanEnter
| EvTraceContextEnter (name rollout attempt : string)
| EvCtxExit (c : trace_ctx)
| EvSpanEnter (c : trace_ctx) (name : string)
| EvSetAttribute (key : string) (value : pyval)
| EvSpanExit (exc : option exn)
| EvEmitReward (reward : float)
| EvLog (lv : level) (what : string)
| EvWork.

(** How the environment answers during one call. *)
Record env := {
  (** [os.getenv("ENABLE_AGENT_LIGHTNING")], [None] when unset *)
  ENABLE_AGENT_LIGHTNING : option string;
  (** whether [import agentlightning] succeeded *)
  AGENT_LIGHTNING_AVAILABLE : bool;
  (** [OtelTracer()] and [InMemoryLightningStore()] *)
  OtelTracer_new : option exn;
  InMemoryLightningStore_new : option exn;
  (** [time.time()] *)
  time_time : float;
  (** [await store.start_rollout(input=...)] *)
  store_start_rollout : exn + Rollout;
  (** [tracer.lifespan(store).__enter__()] *)
  lifespan_enter : option exn;
  (** [await tracer.trace_context(...).__aenter__()] *)
  trace_context_aenter : exn + trace_ctx;
  (** [await ctx.__aexit__(None, None, None)] *)
  ctx_aexit : option exn;
  (** [ctx.start_as_current_span(name).__enter__()] *)
  start_as_current_span : option exn;
  (** [span.set_attribute(key, value)] *)
  span_set_attribute : string -> pyval -> option exn;
  (** the span's [__exit__]: a true result swallows the exception *)
  span_exit : option exn -> exn + bool;
  (** [agentlightning.emit_reward(reward)] *)
  emit_reward : float -> option exn;
}.

(** The tracer object together with the record of what it did. *)
Record world := { self : OpenClawLightningTracer; trace : list event }.

Definition emit (ev : event) : M world unit :=
  modify (fun w => {| self := self w; trace := trace w ++ [ev] |}).

Definition getattr {A} (f : OpenClawLightningTracer -> A) : M world A :=
  w <- get ;; ret (f (self w)).

Definition setattr (f : OpenClawLightningTracer -> OpenClawLightningTracer) : M world unit :=
  modify (fun w => {| self := f (self w); trace := trace w |}).

(** [self.logger.<level>(...)]: the text of the message is not kept. *)
Definition log (lv : level) (what : string) : M world unit := emit (EvLog lv what).

(** The use of a value that may be [None], where [None] raises [e]. *)
Definition require {A} (o : option A) (e : exn) : M world A :=
  match o with
  | Some a => ret a
  | None => raise e
  end.

(** Attribute access on an object that may be [None]. *)
Definition deref {A} (o : option A) (attr : string) : M world A :=
  require o (AttributeError ("'NoneType' object has no attribute '" +:+ attr +:+ "'")).

(** [None] as the argument of [int] and as an operand of [-]. *)
Definition int_of_None : exn :=
  TypeError "int() argument must be a string, a bytes-like object or a real number, not 'NoneType'".
Definition sub_None : exn :=
  TypeError "unsupported operand type(s) for -: 'float' and 'NoneType'".

Definition truthy_ctx (c : option trace_ctx) : bool :=
  match c with Some _ => true | None => false end.

Definition truthy_time (t : option float) : bool :=
  match t with Some x => truthy_float x | None => false end.

Definition truthy_int (n : option Z) : bool :=
  match n with Some z => negb (Z.eqb z 0) | None => false end.

Definition truthy_dict (d : option dict) : bool :=
  match d with Some (_ :: _) => true | _ => false end.

(** *** Construction: the availability gate *)

(** [_check_enabled].  It runs as the first statement of [__init__], before
    [self.logger] is assigned, so the warning of the second test raises
    [AttributeError]. *)
Definition _check_enabled (E : env) : M world bool :=
  if negb (String.eqb (lower (default "false" (ENABLE_AGENT_LIGHTNING E))) "true")
  then ret false
  else if negb (AGENT_LIGHTNING_AVAILABLE E)
  then raise (AttributeError "'OpenClawLightningTracer' object has no attribute 'logger'")
  else ret true.

Definition __init__ (E : env) : M world unit :=
  en <- _check_enabled E ;;
  setattr (set_enabled en) ;;
  setattr (set_tracer None) ;;
  setattr (set_store None) ;;
  setattr (set_current_rollout None) ;;
  setattr (set_current_tracer_ctx None) ;;
  setattr (set_session_start_time None) ;;
  setattr (set_tool_call_count 0) ;;
  en <- getattr enabled ;;
  if en : bool then
    try_except
      (may_raise (OtelTracer_new E) ;;
       setattr (set_tracer (Some tt)) ;;
       may_raise (InMemoryLightningStore_new E) ;;
       setattr (set_store (Some tt)) ;;
       log INFO "Agent Lightning tracing enabled")
      (fun e =>
         log ERROR "Failed to initialize Agent Lightning" ;;
         setattr (set_enabled false))
  else ret tt.

(** The object before [__init__] has assigned anything. *)
Definition blank : OpenClawLightningTracer :=
  {| enabled := false; tracer := None; store := None; current_rollout := None;
     current_tracer_ctx := None; session_start_time := None; tool_call_count := 0 |}.

(** [OpenClawLightningTracer()] *)
Definition new (E : env) : exn + OpenClawLightningTracer :=
  match __init__ E {| self := blank; trace := [] |} with
  | (inr _, w) => inr (self w)
  | (inl e, _) => inl e
  end.

(** *** start_session *)

Definition start_session (E : env) (user_message : pyval) (session_metadata : option dict)
  : M world unit :=
  en <- getattr enabled ;;
  if negb en then ret tt
  else
    try_except
      (setattr (set_session_start_time (Some (time_time E))) ;;
       setattr (set_tool_call_count 0) ;;
       t <- getattr session_start_time ;;
       let input_data : dict :=
         [("user_message", user_message);
          ("timestamp", match t with Some x => PFloat x | None => PNone end)] in
       let input_data :=
         if truthy_dict session_metadata
         then dict_update input_data (default [] session_metadata)
         else input_data in
       st <- getattr store ;;
       deref st "start_rollout" ;;
       emit (EvStartRollout input_data) ;;
       r <- answer (store_start_rollout E) ;;
       setattr (set_current_rollout (Some r)) ;;
       try_except
         (tr <- getattr tracer ;;
          deref tr "lifespan" ;;
          emit EvLifespanEnter ;;
          may_raise (lifespan_enter E) ;;
          t <- getattr session_start_time ;;
          t <- require t int_of_None ;;
          n <- answer (int_of_float t) ;;
          ro <- getattr current_rollout ;;
          ro <- deref ro "rollout_id" ;;
          emit (EvTraceContextEnter ("openclaw-session-" +:+ pretty n)
                  (rollout_id ro) (attempt_id ro)) ;;
          c <- answer (trace_context_aenter E) ;;
          setattr (set_current_tracer_ctx (Some c)))
         (fun ctx_error =>
            log ERROR "Failed to start trace context" ;;
            setattr (set_current_tracer_ctx None)) ;;
       ro <- getattr current_rollout ;;
       deref ro "rollout_id" ;;
       log DEBUG "Started session tracking")
      (fun e =>
         log ERROR "Failed to start session" ;;
         setattr (set_enabled false)).

(** *** trace_tool *)

Definition span_enter (E : env) (name : string) : M world unit :=
  c <- getattr current_tracer_ctx ;;
  c <- deref c "start_as_current_span" ;;
  emit (EvSpanEnter c name) ;;
  may_raise (start_as_current_span E).

Definition span_leave (E : env) (exc : option exn) : M world bool :=
  emit (EvSpanExit exc) ;;
  answer (span_exit E exc).

Definition set_attribute (E : env) (key : string) (value : pyval) : M world unit :=
  emit (EvSetAttribute key value) ;;
  may_raise (span_set_attribute E key value).

(** The generator under [@contextmanager]. *)
Definition trace_tool (E : env) (tool_name : string) (kwargs : list (string * pyobj))
  : gen world :=
  en <- getattr enabled ;;
  c <- getattr current_tracer_ctx ;;
  if negb en || negb (truthy_ctx c) then
    gen_yield
  else
    gen_try
      (n <- getattr tool_call_count ;;
       setattr (set_tool_call_count (n + 1)) ;;
       gen_with (span_enter E ("tool-" +:+ tool_name)) (span_leave E)
         (set_attribute E "tool.name" (PStr tool_name) ;;
          n <- getattr tool_call_count ;;
          set_attribute E "tool.call_number" (PInt n) ;;
          for_each kwargs (fun kv =>
            v <- answer (py_str (snd kv)) ;;
            set_attribute E ("tool." +:+ fst kv) (PStr (take_str 200 v))) ;;
          gen_yield))
      (fun e =>
         log ERROR "Error tracing tool" ;;
         gen_yield).

(** The wrapped code: it runs, and returns [v] or raises [e]. *)
Definition work {V} (r : exn + V) : M world V :=
  emit EvWork ;; answer r.

(** [with tracer.trace_tool(tool_name, **kwargs): <work>] *)
Definition with_trace_tool {V} (E : env) (tool_name : string)
    (kwargs : list (string * pyobj)) (body : M world V) : M world (with_result V) :=
  with_stmt (trace_tool E tool_name kwargs) body.

(** *** emit_task_reward *)

(** The float constants of the reward formula; [0.1] and [0.2] are the
    binary64 values nearest to one tenth and one fifth. *)
Definition f_1_0 : float := 1.0%float.
Definition f_minus_0_5 : float := (-0.5)%float.
Definition f_0_1 : float := 0x1.999999999999ap-4%float.
Definition f_0_2 : float := 0x1.999999999999ap-3%float.
Definition f_30_0 : float := 30.0%float.

(** [tokens_used and expected_tokens and tokens_used < expected_tokens] *)
Definition token_bonus_due (tokens_used expected_tokens : option Z) : bool :=
  truthy_int tokens_used && truthy_int expected_tokens &&
  match tokens_used, expected_tokens with
  | Some t, Some e => Z.ltb t e
  | _, _ => false
  end.

(** [duration_seconds and duration_seconds < 30.0] *)
Definition time_bonus_due (duration_seconds : option float) : bool :=
  match duration_seconds with
  | Some d => truthy_float d && PrimFloat.ltb d f_30_0
  | None => false
  end.

Definition is_None {A} (o : option A) : bool :=
  match o with None => true | Some _ => false end.

Definition emit_task_reward (E : env) (success : bool)
    (tokens_used expected_tokens : option Z) (duration_seconds : option float)
    (user_rating : option Z) : M world unit :=
  en <- getattr enabled ;;
  c <- getattr current_tracer_ctx ;;
  if negb en || negb (truthy_ctx c) then ret tt
  else
    try_except
      (let reward := if success then f_1_0 else f_minus_0_5 in
       reward <- (if token_bonus_due tokens_used expected_tokens
                  then log DEBUG "Token efficiency bonus" ;;
                       ret (PrimFloat.add reward f_0_1)
                  else ret reward) ;;
       t0 <- getattr session_start_time ;;
       duration_seconds <-
         (if is_None duration_seconds && truthy_time t0
          then t0 <- require t0 sub_None ;;
               ret (Some (PrimFloat.sub (time_time E) t0))
          else ret duration_seconds) ;;
       reward <- (if time_bonus_due duration_seconds
                  then log DEBUG "Time efficiency bonus" ;;
                       ret (PrimFloat.add reward f_0_1)
                  else ret reward) ;;
       reward <- (match user_rating with
                  | Some rating =>
                      r <- answer (float_of_int (rating - 3)) ;;
                      let feedback_bonus := PrimFloat.mul r f_0_2 in
                      log DEBUG "User feedback bonus" ;;
                      ret (PrimFloat.add reward feedback_bonus)
                  | None => ret reward
                  end) ;;
       emit (EvEmitReward reward) ;;
       may_raise (emit_reward E reward) ;;
       (* the message formats [duration_seconds] with [:.1f] *)
       match duration_seconds with
       | Some _ => log INFO "Task reward"
       | None => raise (TypeError "unsupported format string passed to NoneType.__format__")
       end)
      (fun e => log ERROR "Failed to emit reward").

(** The rewards handed to [emit_reward], in order. *)
Definition rewards (tr : list event) : list float :=
  omap (fun ev => match ev with EvEmitReward r => Some r | _ => None end) tr.

(** *** end_session *)

Definition end_session (E : env) : M world unit :=
  en <- getattr enabled ;;
  if negb en then ret tt
  else
    try_except
      (c <- getattr current_tracer_ctx ;;
       match c with
       | Some c =>
           emit (EvCtxExit c) ;;
           may_raise (ctx_aexit E) ;;
           setattr (set_current_tracer_ctx None)
       | None => ret tt
       end ;;
       t0 <- getattr session_start_time ;;
       (if truthy_time t0 then log DEBUG "Session ended" else ret tt) ;;
       setattr (set_current_rollout None) ;;
       setattr (set_session_start_time None) ;;
       setattr (set_tool_call_count 0))
      (fun e => log ERROR "Failed to end session").

(** *** get_session_stats *)

Record session_stats := {
  stats_enabled : bool;
  stats_rollout_id : option string;
  stats_duration_seconds : float;
  stats_tool_call_count : Z;
}.

(** [None] stands for the empty dict. *)
Definition get_session_stats (E : env) : M world (option session_stats) :=
  en <- getattr enabled ;;
  t0 <- getattr session_start_time ;;
  if negb en || negb (truthy_time t0) then ret None
  else
    ro <- getattr current_rollout ;;
    t0 <- require t0 sub_None ;;
    n <- getattr tool_call_count ;;
    ret (Some {| stats_enabled := en;
                 stats_rollout_id := rollout_id <$> ro;
                 stats_duration_seconds := PrimFloat.sub (time_time E) t0;
                 stats_tool_call_count := n |}).

(** *** The manager's states and sequences of calls *)

(** [IDLE]: no trace context, no rollout, no start time. *)
Definition idle (s : OpenClawLightningTracer) : Prop :=
  current_tracer_ctx s = None /\ current_rollout s = None /\ session_start_time s = None.

(** [ACTIVE]: a trace context is open. *)
Definition active (s : OpenClawLightningTracer) : Prop :=
  exists c, current_tracer_ctx s = Some c.

(** One use of the tracer by its caller. *)
Inductive call :=
| Call_start_session (user_message : pyval) (session_metadata : option dict)
| Call_trace_tool (tool_name : string) (kwargs : list (string * pyobj)) (wrapped : exn + pyval)
| Call_emit_task_reward (success : bool) (tokens_used expected_tokens : option Z)
    (duration_seconds : option float) (user_rating : option Z)
| Call_end_session
| Call_get_session_stats.

Definition run_call (E : env) (c : call) : M world unit :=
  match c with
  | Call_start_session m md => start_session E m md
  | Call_trace_tool n kw r => with_trace_tool E n kw (work r) ;; ret tt
  | Call_emit_task_reward s t e d u => emit_task_reward E s t e d u
  | Call_end_session => end_session E
  | Call_get_session_stats => get_session_stats E ;; ret tt
  end.

(** A caller that goes on after an exception: the state each call leaves,
    whatever its outcome. *)
Fixpoint run_calls (l : list (env * call)) (w : world) : world :=
  match l with
  | [] => w
  | (E, c) :: r => run_calls r (snd (run_call E c w))
  end.

(** *** More of the module *)

(** [d.get(k)] *)
Fixpoint dict_get (d : dict) (k : string) : option pyval :=
  match d with
  | [] => None
  | (k', v) :: r => if String.eqb k' k then Some v else dict_get r k
  end.

(** An environment in which whatever a collaborator raises is an
    [Exception]: no call is interrupted by [KeyboardInterrupt],
    [SystemExit] or a cancellation. *)
Definition raises_only_Exceptions (E : env) : Prop :=
  (forall e, store_start_rollout E = inl e -> is_Exception e = true) /\
  (forall e, lifespan_enter E = Some e -> is_Exception e = true) /\
  (forall e, trace_context_aenter E = inl e -> is_Exception e = true) /\
  (forall e, ctx_aexit E = Some e -> is_Exception e = true) /\
  (forall e, start_as_current_span E = Some e -> is_Exception e = true) /\
  (forall k v e, span_set_attribute E k v = Some e -> is_Exception e = true) /\
  (forall x e, span_exit E x = inl e -> is_Exception e = true) /\
  (forall r e, emit_reward E r = Some e -> is_Exception e = true).

(** The module-level [_global_tracer] and the record of what constructing
    it did. *)
Record globals := { _global_tracer : option OpenClawLightningTracer; gtrace : list event }.

(** [get_tracer()]: the global is assigned only when the constructor
    returns. *)
Definition get_tracer (E : env) : M globals OpenClawLightningTracer :=
  fun g =>
    match _global_tracer g with
    | Some t => (inr t, g)
    | None =>
        match __init__ E {| self := blank; trace := gtrace g |} with
        | (inr _, w) => (inr (self w), {| _global_tracer := Some (self w); gtrace := trace w |})
        | (inl e, w) => (inl e, {| _global_tracer := None; gtrace := trace w |})
        end
    end.

(** Bounds of the reward: the binary64 values nearest to 0.6, 1.6 and
    -0.9. *)
Definition f_0_6 : float := 0x1.3333333333333p-1%float.
Definition f_1_6 : float := 0x1.999999999999ap+0%float.
Definition f_minus_0_9 : float := (-0x1.ccccccccccccdp-1)%float.

(** A method call on the global tracer. *)
Definition on_global {A} (m : M world A) : M globals A :=
  fun g =>
    match _global_tracer g with
    | None => (inl (AttributeError "'NoneType' object has no attribute"), g)
    | Some t =>
        let (r, w) := m {| self := t; trace := gtrace g |} in
        (r, {| _global_tracer := Some (self w); gtrace := trace w |})
    end.

(** [try: m  finally: f]: [f] runs however [m] ends; an exception of [f]
    replaces the outcome of [m]. *)
Definition try_finally {W A} (m : M W A) (f : M W unit) : M W A :=
  fun w =>
    let (r, w1) := m w in
    match f w1 with
    | (inl e, w2) => (inl e, w2)
    | (inr _, w2) => (r, w2)
    end.

(** [example_integration].  [Es i] is the environment during the [i]-th
    call the example makes: [get_tracer], [start_session], the three
    [trace_tool] blocks, the reward of the normal path, the reward of the
    failure path, [end_session].  The body of each [with] is [pass]. *)
Definition example_integration (Es : nat -> env) : M globals unit :=
  _ <- get_tracer (Es 0%nat) ;;
  on_global (start_session (Es 1%nat)
               (PStr "Research Agent Lightning and write summary")
               (Some [("channel", PStr "telegram"); ("user_id", PStr "12345")])) ;;
  try_finally
    (try_except
       (on_global (with_trace_tool (Es 2%nat) "web_search"
                     [("query", {| py_str := inr "Agent Lightning" |})]
                     (work (inr PNone))) ;;
        on_global (with_trace_tool (Es 3%nat) "read"
                     [("path", {| py_str := inr "README.md" |})]
                     (work (inr PNone))) ;;
        on_global (with_trace_tool (Es 4%nat) "write"
                     [("path", {| py_str := inr "summary.md" |});
                      ("bytes", {| py_str := inr "2500" |})]
                     (work (inr PNone))) ;;
        on_global (emit_task_reward (Es 5%nat) true (Some 450) (Some 500) None None))
       (fun e =>
          on_global (emit_task_reward (Es 6%nat) false None None None None) ;;
          raise e))
    (on_global (end_session (Es 7%nat))).

End Tracer.

(* ===================================================================== *)
(** ** lightning_bridge_service.py *)
(* ===================================================================== *)

Module Bridge.
Import Py Tracer.
#[local] Open Scope py_scope.

(** *** Data *)

(** A session id as the handlers see it: a string, or [None] (a JSON
    [null], or [data.get('session_id')] on a body without the field). *)
Definition session_key : Type := option string.

(** An entry of [current_sessions]. *)
Record session := { started_at : string; message : pyval; tool_count : Z }.

(** The module-level state: the global [tracer], the registry
    [current_sessions], and the record of what was done to the backend and
    the logs. *)
Record bridge := {
  g_tracer : option OpenClawLightningTracer;
  current_sessions : gmap session_key session;
  backend : list event;
}.

(** The module as loaded: no tracer yet, empty registry. *)
Definition initial : bridge :=
  {| g_tracer := None; current_sessions := ∅; backend := [] |}.

(** The environment of one request: the tracer's environment and the two
    readings of [datetime.now()], already as text. *)
Record benv := {
  tenv : env;
  (** [str(datetime.now().timestamp())] *)
  now_timestamp : string;
  (** [datetime.now().isoformat()] *)
  now_isoformat : string;
}.

(** The parsed body of POST /session/start.  A field is absent ([None]) or
    present; a present [session_id] is a string or null, a present
    [metadata] is an object or null. *)
Record start_request := {
  start_message : option pyval;
  start_session_id : option session_key;
  start_metadata : option (option dict);
}.

(** POST /tool/trace: [data.get('session_id')] and [data.get('tool_name')]. *)
Record trace_request := {
  trace_session_id : session_key;
  trace_tool_name : option string;
}.

(** POST /session/end: [data.get('session_id')]. *)
Record end_request := { end_session_id : session_key }.

(** JSON values of the response bodies. *)
Inductive jval :=
| JNull
| JBool (b : bool)
| JInt (n : Z)
| JStr (s : string)
| JSessions (m : gmap session_key session)
| JStats (s : option session_stats).

Record response := { status : nat; body : list (string * jval) }.

(** [web.json_response(body)] and [web.json_response(body, status=500)] *)
Definition json_response (b : list (string * jval)) : response :=
  {| status := 200; body := b |}.

Definition error_response (e : exn) : response :=
  {| status := 500; body := [("success", JBool false); ("error", JStr (str_exn e))] |}.

Definition jstr (s : option string) : jval :=
  match s with Some x => JStr x | None => JNull end.

Definition key_val (k : session_key) : pyval :=
  match k with Some x => PStr x | None => PNone end.

(** *** State access *)

Definition set_sessions (m : gmap session_key session) (b : bridge) : bridge :=
  {| g_tracer := g_tracer b; current_sessions := m; backend := backend b |}.

(** [logger.info(...)] / [logger.error(...)] of the module. *)
Definition blog (lv : level) (what : string) : M bridge unit :=
  modify (fun b => {| g_tracer := g_tracer b; current_sessions := current_sessions b;
                      backend := backend b ++ [EvLog lv what] |}).

(** A method call on the global tracer. *)
Definition on_tracer {A} (m : M world A) : M bridge A :=
  fun b =>
    match g_tracer b with
    | None => (inl (AttributeError "'NoneType' object has no attribute"), b)
    | Some t =>
        let (r, w) := m {| self := t; trace := backend b |} in
        (r, {| g_tracer := Some (self w); current_sessions := current_sessions b;
               backend := trace w |})
    end.

(** [tracer = OpenClawLightningTracer()]: the global is assigned only when
    the constructor returns. *)
Definition construct (E : env) : M bridge unit :=
  fun b =>
    match __init__ E {| self := blank; trace := backend b |} with
    | (inr _, w) => (inr tt, {| g_tracer := Some (self w);
                                current_sessions := current_sessions b;
                                backend := trace w |})
    | (inl e, w) => (inl e, {| g_tracer := g_tracer b;
                               current_sessions := current_sessions b;
                               backend := trace w |})
    end.

(** [tracer is None or not tracer.enabled] *)
Definition tracing_off (b : bridge) : bool :=
  match g_tracer b with
  | None => true
  | Some t => negb (enabled t)
  end.

(** [tracer.enabled if tracer else False], [tracer and tracer.enabled] *)
Definition tracer_enabled (b : bridge) : bool :=
  match g_tracer b with
  | Some t => enabled t
  | None => false
  end.

(** [if session_id in current_sessions: del current_sessions[session_id]] *)
Definition forget (k : session_key) : M bridge unit :=
  modify (fun b => match current_sessions b !! k with
                   | Some _ => set_sessions (delete k (current_sessions b)) b
                   | None => b
                   end).

(** *** Handlers *)

Definition handle_session_start (E : benv) (data : start_request) : M bridge response :=
  try_except
    (let user_message := default (PStr "") (start_message data) in
     let session_id := default (Some ("session-" +:+ now_timestamp E)) (start_session_id data) in
     let metadata := default (Some []) (start_metadata data) in
     b <- get ;;
     (if is_None (g_tracer b) then construct (tenv E) else ret tt) ;;
     md <- (match metadata with
            | Some d => ret d
            | None => raise (TypeError "'NoneType' object is not a mapping")
            end) ;;
     on_tracer (start_session (tenv E) user_message
                  (Some (dict_set md "bridge_session_id" (key_val session_id)))) ;;
     modify (fun b => set_sessions
               (<[session_id := {| started_at := now_isoformat E;
                                   message := user_message;
                                   tool_count := 0 |}]> (current_sessions b)) b) ;;
     blog INFO "Started session" ;;
     en <- on_tracer (getattr enabled) ;;
     ret (json_response [("success", JBool true);
                         ("session_id", jstr session_id);
                         ("enabled", JBool en)]))
    (fun e =>
       blog ERROR "Error starting session" ;;
       ret (error_response e)).

Definition handle_tool_trace (E : benv) (data : trace_request) : M bridge response :=
  try_except
    (let session_id := trace_session_id data in
     let tool_name := trace_tool_name data in
     b <- get ;;
     if tracing_off b then
       ret (json_response [("success", JBool true);
                           ("traced", JBool false);
                           ("reason", JStr "tracing disabled")])
     else
       blog INFO "Tool trace" ;;
       b <- get ;;
       (match current_sessions b !! session_id with
        | Some s =>
            modify (set_sessions
                      (<[session_id := {| started_at := started_at s;
                                          message := message s;
                                          tool_count := tool_count s + 1 |}]>
                         (current_sessions b)))
        | None => ret tt
        end) ;;
       ret (json_response [("success", JBool true);
                           ("traced", JBool true);
                           ("tool_name", jstr tool_name)]))
    (fun e =>
       blog ERROR "Error tracing tool" ;;
       ret (error_response e)).

Definition handle_session_end (E : benv) (data : end_request) : M bridge response :=
  try_except
    (let session_id := end_session_id data in
     b <- get ;;
     if tracing_off b then
       forget session_id ;;
       ret (json_response [("success", JBool true);
                           ("ended", JBool false);
                           ("reason", JStr "tracing disabled")])
     else
       on_tracer (end_session (tenv E)) ;;
       forget session_id ;;
       blog INFO "Ended session" ;;
       ret (json_response [("success", JBool true);
                           ("ended", JBool true)]))
    (fun e =>
       blog ERROR "Error ending session" ;;
       ret (error_response e)).

Definition handle_stats (E : benv) : M bridge response :=
  b <- get ;;
  let stats := [("enabled", JBool (tracer_enabled b));
                ("active_sessions", JInt (Z.of_nat (size (current_sessions b))));
                ("sessions", JSessions (current_sessions b))] in
  if tracer_enabled b then
    st <- on_tracer (get_session_stats (tenv E)) ;;
    ret (json_response (stats ++ [("session_stats", JStats st)]))
  else ret (json_response stats).

(** A field of a response body. *)
Definition field (r : response) (k : string) : option jval :=
  snd <$> find (fun kv => String.eqb (fst kv) k) (body r).

(** POST /session/reward: [data.get('success', False)] is used only as a
    condition, so an absent field, [null] and [false] are alike;
    [data.get('tokens_used')], [data.get('expected_tokens')] and
    [data.get('duration')] are a number or [None]. *)
Record reward_request := {
  reward_session_id : session_key;
  reward_success : option bool;
  reward_tokens_used : option Z;
  reward_expected_tokens : option Z;
  reward_duration : option float;
}.

Definition handle_session_reward (E : benv) (data : reward_request) : M bridge response :=
  try_except
    (let session_id := reward_session_id data in
     let success := default false (reward_success data) in
     let tokens_used := reward_tokens_used data in
     let expected_tokens := reward_expected_tokens data in
     let duration := reward_duration data in
     b <- get ;;
     if tracing_off b then
       ret (json_response [("success", JBool true);
                           ("rewarded", JBool false);
                           ("reason", JStr "tracing disabled")])
     else
       on_tracer (emit_task_reward (tenv E) success tokens_used expected_tokens
                    duration None) ;;
       blog INFO "Reward emitted" ;;
       ret (json_response [("success", JBool true);
                           ("rewarded", JBool true)]))
    (fun e =>
       blog ERROR "Error emitting reward" ;;
       ret (error_response e)).

Definition handle_health (E : benv) : M bridge response :=
  b <- get ;;
  let enabled := tracer_enabled b in
  ret (json_response [("status", JStr "healthy");
                      ("service", JStr "agent-lightning-bridge");
                      ("tracing_enabled", JBool enabled);
                      ("active_sessions", JInt (Z.of_nat (size (current_sessions b))))]).

(** One request to the service. *)
Inductive request :=
| POST_session_start (data : start_request)
| POST_tool_trace (data : trace_request)
| POST_session_reward (data : reward_request)
| POST_session_end (data : end_request)
| GET_health
| GET_stats.

(** The routes of [init_app]. *)
Definition route (E : benv) (r : request) : M bridge response :=
  match r with
  | POST_session_start d => handle_session_start E d
  | POST_tool_trace d => handle_tool_trace E d
  | POST_session_reward d => handle_session_reward E d
  | POST_session_end d => handle_session_end E d
  | GET_health => handle_health E
  | GET_stats => handle_stats E
  end.

(** The state the service is in after a sequence of requests. *)
Fixpoint serve (l : list (benv * request)) (b : bridge) : bridge :=
  match l with
  | [] => b
  | (E, r) :: rest => serve rest (snd (route E r b))
  end.

End Bridge.

(* ===================================================================== *)
(** ** Scenarios: concrete environments and states *)
(* ===================================================================== *)

Module Scenarios.
Import Py Tracer Bridge.

(** A backend on which every call succeeds; the span's [__exit__] lets
    exceptions through, as OpenTelemetry's does. *)
Definition healthy (flag : option string) (now : float) : env :=
  {| ENABLE_AGENT_LIGHTNING := flag;
     AGENT_LIGHTNING_AVAILABLE := true;
     OtelTracer_new := None;
     InMemoryLightningStore_new := None;
     time_time := now;
     store_start_rollout := inr {| rollout_id := "ro-1"; attempt_id := "at-1" |};
     lifespan_enter := None;
     trace_context_aenter := inr (TraceCtx 1);
     ctx_aexit := None;
     start_as_current_span := None;
     span_set_attribute := fun _ _ => None;
     span_exit := fun _ => inr false;
     emit_reward := fun _ => None |}.

Definition on_env : env := healthy (Some "true") 1000%float.

(** The same backend, but closing the trace context raises. *)
Definition close_fails : env :=
  {| ENABLE_AGENT_LIGHTNING := Some "true";
     AGENT_LIGHTNING_AVAILABLE := true;
     OtelTracer_new := None;
     InMemoryLightningStore_new := None;
     time_time := 1060%float;
     store_start_rollout := inr {| rollout_id := "ro-1"; attempt_id := "at-1" |};
     lifespan_enter := None;
     trace_context_aenter := inr (TraceCtx 1);
     ctx_aexit := Some (RuntimeError "context already closed");
     start_as_current_span := None;
     span_set_attribute := fun _ _ => None;
     span_exit := fun _ => inr false;
     emit_reward := fun _ => None |}.

(** The same backend, but starting a rollout raises. *)
Definition rollout_fails : env :=
  {| ENABLE_AGENT_LIGHTNING := Some "true";
     AGENT_LIGHTNING_AVAILABLE := true;
     OtelTracer_new := None;
     InMemoryLightningStore_new := None;
     time_time := 2000%float;
     store_start_rollout := inl (RuntimeError "store unavailable");
     lifespan_enter := None;
     trace_context_aenter := inr (TraceCtx 2);
     ctx_aexit := None;
     start_as_current_span := None;
     span_set_attribute := fun _ _ => None;
     span_exit := fun _ => inr false;
     emit_reward := fun _ => None |}.

(** The same backend, but opening the trace context raises. *)
Definition context_fails : env :=
  {| ENABLE_AGENT_LIGHTNING := Some "true";
     AGENT_LIGHTNING_AVAILABLE := true;
     OtelTracer_new := None;
     InMemoryLightningStore_new := None;
     time_time := 1000%float;
     store_start_rollout := inr {| rollout_id := "ro-1"; attempt_id := "at-1" |};
     lifespan_enter := None;
     trace_context_aenter := inl (RuntimeError "no tracer provider");
     ctx_aexit := None;
     start_as_current_span := None;
     span_set_attribute := fun _ _ => None;
     span_exit := fun _ => inr false;
     emit_reward := fun _ => None |}.

(** A tracer as constructed with the flag on and the library present. *)
Definition fresh : OpenClawLightningTracer :=
  {| enabled := true; tracer := Some tt; store := Some tt;
     current_rollout := None; current_tracer_ctx := None;
     session_start_time := None; tool_call_count := 0 |}.

(** The tracer in the middle of a session started at time 1000. *)
Definition in_session : OpenClawLightningTracer :=
  {| enabled := true; tracer := Some tt; store := Some tt;
     current_rollout := Some {| rollout_id := "ro-1"; attempt_id := "at-1" |};
     current_tracer_ctx := Some (TraceCtx 1);
     session_start_time := Some 1000%float; tool_call_count := 0 |}.

(** A tracer whose gate is closed. *)
Definition disabled : OpenClawLightningTracer :=
  {| enabled := false; tracer := None; store := None;
     current_rollout := None; current_tracer_ctx := None;
     session_start_time := None; tool_call_count := 0 |}.

Definition at_start (s : OpenClawLightningTracer) : world := {| self := s; trace := [] |}.

(** The bridge's environment with the feature flag unset. *)
Definition flag_off : benv :=
  {| tenv := healthy None 1000%float;
     now_timestamp := "1700000000.123456";
     now_isoformat := "2023-11-14T22:13:20.123456" |}.

(** The body [{"message": "hi"}]. *)
Definition hi : start_request :=
  {| start_message := Some (PStr "hi"); start_session_id := None; start_metadata := None |}.

(** A session is open; a second [start_session] then fails in the
    rollout-start step, which closes the gate with the first session's
    context still in place. *)
Definition stranded : world :=
  run_calls [(on_env, Call_start_session (PStr "first task") None);
             (rollout_fails, Call_start_session (PStr "second task") None)]
            (at_start fresh).

End Scenarios.

(* ===================================================================== *)
(** ** Properties *)
(* ===================================================================== *)

Import Py Tracer Bridge.
#[local] Open Scope py_scope.

(** Unfolds the plumbing of [M] so that a method applied to a state
    computes. *)
Ltac py_unfold :=
  unfold getattr, setattr, log, emit, deref, require, answer, may_raise, try_except,
    bind, ret, raise, get, modify in *.

(** *** The gate *)

Lemma start_session_gate_closed E m md w :
  enabled (self w) = false -> start_session E m md w = (inr tt, w).
Proof. intros H. unfold start_session. py_unfold. simpl. now rewrite H. Qed.

Lemma emit_task_reward_gate_closed E su tu et d ur w :
  enabled (self w) = false -> emit_task_reward E su tu et d ur w = (inr tt, w).
Proof. intros H. unfold emit_task_reward. py_unfold. simpl. now rewrite H. Qed.

Lemma end_session_gate_closed E w :
  enabled (self w) = false -> end_session E w = (inr tt, w).
Proof. intros H. unfold end_session. py_unfold. simpl. now rewrite H. Qed.

Lemma get_session_stats_gate_closed E w :
  enabled (self w) = false -> get_session_stats E w = (inr None, w).
Proof. intros H. unfold get_session_stats. py_unfold. simpl. now rewrite H. Qed.

(** With the gate closed or no trace context, [with trace_tool(...)] is the
    wrapped code and nothing else, whatever that code is. *)
Lemma with_trace_tool_pass_through {V} E n kw (body : M world V) w :
  enabled (self w) = false \/ current_tracer_ctx (self w) = None ->
  with_trace_tool E n kw body w =
    match body w with
    | (inr v, w') => (inr (Completed v), w')
    | (inl e, w') => (inl e, w')
    end.
Proof.
  intros H.
  unfold with_trace_tool, with_stmt, cm_enter, trace_tool, gen_yield.
  py_unfold. simpl.
  assert (Hc : negb (enabled (self w)) || negb (truthy_ctx (current_tracer_ctx (self w))) = true).
  { destruct H as [H | H]; rewrite H; simpl; [reflexivity | apply orb_true_r]. }
  rewrite Hc. simpl.
  destruct (body w) as [[e | v] w']; simpl; [| reflexivity].
  destruct (decide (e = e)); [reflexivity | contradiction].
Qed.

Lemma work_runs_once {V} (r : exn + V) w :
  work r w = (r, {| self := self w; trace := trace w ++ [EvWork] |}).
Proof. unfold work. py_unfold. simpl. now destruct r. Qed.

(** C3. With the availability gate closed ([enabled] is false),
    [start_session], [emit_task_reward] and [end_session] return normally
    and leave the tracer and the backend untouched; [with trace_tool(...)]
    runs the wrapped code once ([EvWork] is the only event added), changes
    nothing in the tracer, and ends exactly as the wrapped code ended: with
    its value, or with the exception it raised and no other. *)
Theorem gate_closed_is_noop (E : env) (w : world) :
  enabled (self w) = false ->
  (forall m md, start_session E m md w = (inr tt, w)) /\
  (forall su tu et d ur, emit_task_reward E su tu et d ur w = (inr tt, w)) /\
  end_session E w = (inr tt, w) /\
  (forall n kw (r : exn + pyval),
     with_trace_tool E n kw (work r) w =
       (match r with inr v => inr (Completed v) | inl e => inl e end,
        {| self := self w; trace := trace w ++ [EvWork] |})).
Proof.
  intros H. repeat split.
  - intros. now apply start_session_gate_closed.
  - intros. now apply emit_task_reward_gate_closed.
  - now apply end_session_gate_closed.
  - intros. rewrite with_trace_tool_pass_through by now left.
    rewrite work_runs_once. now destruct r.
Qed.

Lemma gate_closed_is_noop_witness :
  enabled (self (Scenarios.at_start Scenarios.disabled)) = false /\
  end_session Scenarios.on_env (Scenarios.at_start Scenarios.disabled)
    = (inr tt, Scenarios.at_start Scenarios.disabled) /\
  with_trace_tool Scenarios.on_env "read" [] (work (inl (ValueError "boom") : exn + pyval))
      (Scenarios.at_start Scenarios.disabled)
    = (inl (ValueError "boom"), {| self := Scenarios.disabled; trace := [EvWork] |}).
Proof.
  pose proof (gate_closed_is_noop Scenarios.on_env
                (Scenarios.at_start Scenarios.disabled) eq_refl) as (_ & _ & He & Ht).
  split; [reflexivity |]. split; [exact He |].
  exact (Ht "read" [] (inl (ValueError "boom"))).
Defined.

(** *** end_session *)

(** C2. On an enabled tracer with an open trace context whose
    [__aexit__] raises an [Exception], [end_session] jumps to its handler:
    it logs the failure and returns with the trace context, the rollout
    reference, the start time and the tool counter all as they were, so the
    manager stays ACTIVE.  The claim says they are reset. *)
Theorem end_session_close_failure_skips_reset (E : env) (w : world) (c : trace_ctx) (e : exn) :
  enabled (self w) = true ->
  current_tracer_ctx (self w) = Some c ->
  ctx_aexit E = Some e ->
  is_Exception e = true ->
  end_session E w =
    (inr tt, {| self := self w;
                trace := trace w ++ [EvCtxExit c; EvLog ERROR "Failed to end session"] |}).
Proof.
  intros He Hc Hx Hexc. unfold end_session. py_unfold. simpl.
  rewrite He. simpl. rewrite Hc. simpl. rewrite Hx. simpl. rewrite Hexc.
  now rewrite <- app_assoc.
Qed.

Lemma end_session_close_failure_skips_reset_witness :
  let s := set_tool_call_count 3 Scenarios.in_session in
  let s' := self (snd (end_session Scenarios.close_fails (Scenarios.at_start s))) in
  current_rollout s' = Some {| rollout_id := "ro-1"; attempt_id := "at-1" |} /\
  session_start_time s' = Some 1000%float /\
  tool_call_count s' = 3 /\
  active s'.
Proof.
  cbv zeta.
  rewrite (end_session_close_failure_skips_reset Scenarios.close_fails
             (Scenarios.at_start (set_tool_call_count 3 Scenarios.in_session))
             (TraceCtx 1) (RuntimeError "context already closed")
             eq_refl eq_refl eq_refl eq_refl).
  repeat split. now exists (TraceCtx 1).
Defined.

(** When closing succeeds, or there is nothing to close, an enabled tracer
    ends IDLE with the counter at zero. *)
Lemma end_session_resets E w :
  enabled (self w) = true ->
  current_tracer_ctx (self w) = None \/ ctx_aexit E = None ->
  fst (end_session E w) = inr tt /\
  enabled (self (snd (end_session E w))) = true /\
  idle (self (snd (end_session E w))) /\
  tool_call_count (self (snd (end_session E w))) = 0.
Proof.
  intros He H. unfold end_session, idle. py_unfold. simpl. rewrite He. simpl.
  destruct (current_tracer_ctx (self w)) as [c |] eqn:Hc; simpl.
  - destruct H as [H | H]; [discriminate |]. rewrite H. simpl.
    destruct (truthy_time _); simpl; repeat split; assumption.
  - destruct (truthy_time _); simpl; rewrite ?Hc; repeat split; assumption.
Qed.

(** [end_session] lets no [Exception] escape. *)
Lemma end_session_catches E w :
  (forall e, ctx_aexit E = Some e -> is_Exception e = true) ->
  fst (end_session E w) = inr tt.
Proof.
  intros H. unfold end_session. py_unfold. simpl.
  destruct (enabled (self w)); simpl; [| reflexivity].
  destruct (current_tracer_ctx (self w)) as [c |]; simpl.
  - destruct (ctx_aexit E) as [e |] eqn:Hx; simpl.
    + now rewrite (H e eq_refl).
    + destruct (truthy_time _); reflexivity.
  - destruct (truthy_time _); reflexivity.
Qed.

(** C9, as the code has it.  Two calls of [end_session] in a row raise
    nothing, provided a failure of the context's [__aexit__] is an
    [Exception].  With the gate closed both calls leave the tracer exactly
    as it was, IDLE or not.  On an enabled tracer that has no open context,
    or whose context closes without raising, the manager is IDLE after the
    first call and after the second. *)
Theorem end_session_twice (E1 E2 : env) (w : world) :
  let r1 := end_session E1 w in
  let r2 := end_session E2 (snd r1) in
  (enabled (self w) = false -> r1 = (inr tt, w) /\ r2 = (inr tt, w)) /\
  (enabled (self w) = true ->
   current_tracer_ctx (self w) = None \/ ctx_aexit E1 = None ->
   fst r1 = inr tt /\ fst r2 = inr tt /\
   idle (self (snd r1)) /\ idle (self (snd r2))) /\
  ((forall e, ctx_aexit E1 = Some e -> is_Exception e = true) ->
   (forall e, ctx_aexit E2 = Some e -> is_Exception e = true) ->
   fst r1 = inr tt /\ fst r2 = inr tt).
Proof.
  cbv zeta. split; [| split].
  - intros H. rewrite (end_session_gate_closed E1 w H). simpl.
    now rewrite (end_session_gate_closed E2 w H).
  - intros He H.
    destruct (end_session_resets E1 w He H) as (Hr1 & He1 & Hi1 & _).
    destruct (end_session_resets E2 (snd (end_session E1 w)) He1)
      as (Hr2 & _ & Hi2 & _).
    { left. apply Hi1. }
    auto.
  - intros H1 H2. split; now apply end_session_catches.
Qed.

Lemma end_session_twice_witness :
  let w := Scenarios.at_start Scenarios.in_session in
  let r1 := end_session Scenarios.on_env w in
  let r2 := end_session Scenarios.close_fails (snd r1) in
  fst r1 = inr tt /\ fst r2 = inr tt /\ idle (self (snd r1)) /\ idle (self (snd r2)).
Proof.
  cbv zeta.
  exact (proj1 (proj2 (end_session_twice Scenarios.on_env Scenarios.close_fails
                         (Scenarios.at_start Scenarios.in_session)))
           eq_refl (or_intror eq_refl)).
Defined.

(** C9 as stated fails.  A session is open when a second [start_session]
    fails and closes the gate; [end_session] is then a no-op by its guard,
    so after each of two calls the trace context, the rollout and the start
    time are still set: the manager is not IDLE. *)
Lemma end_session_gate_closed_stays_active :
  let w := Scenarios.stranded in
  let w1 := snd (end_session Scenarios.on_env w) in
  let w2 := snd (end_session Scenarios.on_env w1) in
  enabled (self w) = false /\
  (current_tracer_ctx (self w1) = Some (TraceCtx 1) /\ ~ idle (self w1)) /\
  (current_tracer_ctx (self w2) = Some (TraceCtx 1) /\ ~ idle (self w2)).
Proof.
  cbv zeta. vm_compute.
  split; [reflexivity |].
  split; (split; [reflexivity | intros [H _]; discriminate H]).
Qed.

(** *** The reward *)

Lemma rewards_app l1 l2 : rewards (l1 ++ l2) = rewards l1 ++ rewards l2.
Proof. unfold rewards. apply omap_app. Qed.

(** What the condition of the token bonus tests: both counts are given,
    neither is zero, and fewer tokens were used than expected. *)
Lemma token_bonus_due_spec tu et :
  token_bonus_due tu et = true <->
  exists t e, tu = Some t /\ et = Some e /\ t <> 0 /\ e <> 0 /\ t < e.
Proof.
  unfold token_bonus_due, truthy_int. split.
  - destruct tu as [t |], et as [e |]; simpl; try discriminate;
      rewrite ?andb_false_r; try discriminate.
    intros H. apply andb_prop in H as [H Hlt]. apply andb_prop in H as [Ht He].
    exists t, e. repeat split; lia.
  - intros (t & e & -> & -> & Ht & He & Hlt). simpl.
    apply Z.eqb_neq in Ht, He. rewrite Ht, He. simpl. lia.
Qed.

(** C4. With [tokens_used = 0] and [expected_tokens = 500] both counts are
    given and 0 < 500, so the claim has the bonus added; the code tests
    [tokens_used] for truth, zero is false, and the reward emitted is the
    base 1.0.  With [tokens_used = 1] it is 1.0 + 0.1.  A zero count never
    earns the bonus, whatever is expected. *)
Theorem token_bonus_skipped_for_zero_tokens :
  Z.ltb 0 500 = true /\
  rewards (trace (snd (emit_task_reward Scenarios.on_env true (Some 0) (Some 500)
                         (Some 100%float) None
                         (Scenarios.at_start Scenarios.in_session))))
    = [f_1_0] /\
  rewards (trace (snd (emit_task_reward Scenarios.on_env true (Some 1) (Some 500)
                         (Some 100%float) None
                         (Scenarios.at_start Scenarios.in_session))))
    = [PrimFloat.add f_1_0 f_0_1] /\
  (forall expected, token_bonus_due (Some 0) expected = false).
Proof.
  split; [reflexivity |]. split; [vm_compute; reflexivity |].
  split; [vm_compute; reflexivity |].
  intros [e |]; reflexivity.
Qed.

(** C5. An explicit [duration_seconds = 0.0] is below 30.0, so the claim
    has the bonus added; the code tests the duration for truth, 0.0 is
    false, and the reward emitted is the base 1.0.  With 10.0 it is
    1.0 + 0.1.  The same happens when no duration is given and the clock
    still reads the session's start time. *)
Theorem time_bonus_skipped_for_zero_duration :
  PrimFloat.ltb 0%float f_30_0 = true /\
  time_bonus_due (Some 0%float) = false /\
  rewards (trace (snd (emit_task_reward Scenarios.on_env true None None
                         (Some 0%float) None
                         (Scenarios.at_start Scenarios.in_session))))
    = [f_1_0] /\
  rewards (trace (snd (emit_task_reward Scenarios.on_env true None None
                         (Some 10%float) None
                         (Scenarios.at_start Scenarios.in_session))))
    = [PrimFloat.add f_1_0 f_0_1] /\
  rewards (trace (snd (emit_task_reward Scenarios.on_env true None None
                         None None
                         (Scenarios.at_start Scenarios.in_session))))
    = [f_1_0].
Proof.
  repeat split; vm_compute; reflexivity.
Qed.

Arguments truthy_float : simpl never.

(** Case analysis on the next test that blocks the computation. *)
Ltac break_match :=
  match goal with
  | |- context [match ?x with _ => _ end] =>
      lazymatch x with
      | context [match _ with _ => _ end] => fail
      | _ => destruct x eqn:?; simpl
      end
  end.

(** C7, as the code has it.  The reward handed to [emit_reward] is a
    function of the arguments, the tracer's state and, only when no
    [duration_seconds] is given and a start time is known, the reading of
    the clock.  Two invocations with the same arguments and state compute
    the same reward whenever [duration_seconds] is given, or no start time
    is known, or the clock reads the same; how the backend answers makes no
    difference. *)
Theorem reward_deterministic (E1 E2 : env) su tu et d ur (w : world) :
  d <> None \/ truthy_time (session_start_time (self w)) = false \/
    time_time E1 = time_time E2 ->
  rewards (trace (snd (emit_task_reward E1 su tu et d ur w))) =
  rewards (trace (snd (emit_task_reward E2 su tu et d ur w))).
Proof.
  intros H. destruct w as [[en tr st ro c t0 n] evs]. simpl in H.
  assert (Hd : d <> None \/ truthy_time t0 = false \/ time_time E1 = time_time E2)
    by exact H.
  clear H. unfold emit_task_reward. py_unfold. simpl.
  destruct en; simpl; [| reflexivity].
  destruct c as [c |]; simpl; [| reflexivity].
  destruct (token_bonus_due tu et); simpl.
  all: destruct d as [x |]; simpl.
  all: try (destruct t0 as [f |]; simpl in *;
            [destruct Hd as [Hd | [Hd | Hd]];
             [contradiction | rewrite Hd | rewrite Hd] |]).
  all: repeat break_match; rewrite ?rewards_app; simpl; rewrite ?app_nil_r;
    reflexivity || congruence.
Qed.

Lemma reward_deterministic_witness :
  rewards (trace (snd (emit_task_reward (Scenarios.healthy (Some "true") 1010%float)
                         true (Some 400) (Some 500) (Some 10%float) None
                         (Scenarios.at_start Scenarios.in_session)))) =
  rewards (trace (snd (emit_task_reward Scenarios.close_fails
                         true (Some 400) (Some 500) (Some 10%float) None
                         (Scenarios.at_start Scenarios.in_session)))).
Proof.
  apply (reward_deterministic (Scenarios.healthy (Some "true") 1010%float)
           Scenarios.close_fails).
  left. discriminate.
Defined.

(** C7 as stated fails.  Same arguments (no [duration_seconds]), same
    tracer state (a session started at time 1000): called when the clock
    reads 1010 the reward is 1.0 + 0.1, called when it reads 1040 it is
    1.0. *)
Lemma reward_depends_on_clock :
  let reward_at now :=
    rewards (trace (snd (emit_task_reward (Scenarios.healthy (Some "true") now)
                           true None None None None
                           (Scenarios.at_start Scenarios.in_session)))) in
  reward_at 1010%float = [PrimFloat.add f_1_0 f_0_1] /\
  reward_at 1040%float = [f_1_0] /\
  reward_at 1010%float <> reward_at 1040%float.
Proof.
  cbv zeta. vm_compute. repeat split. discriminate.
Qed.

(** *** trace_tool *)

(** A loop whose every iteration returns normally and only adds events
    returns normally and only adds events. *)
Lemma for_each_ok {A} (f : A -> M world unit) (l : list A) :
  Forall (fun x => forall w, exists evs,
            f x w = (inr tt, {| self := self w; trace := trace w ++ evs |})) l ->
  forall w, exists evs,
    for_each l f w = (inr tt, {| self := self w; trace := trace w ++ evs |}).
Proof.
  induction 1 as [| x l Hx _ IH]; intros w.
  - exists []. simpl. unfold ret. rewrite app_nil_r. now destruct w.
  - simpl. unfold bind. destruct (Hx w) as [evs1 ->].
    destruct (IH {| self := self w; trace := trace w ++ evs1 |}) as [evs2 ->].
    simpl. exists (evs1 ++ evs2). now rewrite app_assoc.
Qed.

(** When opening the span raises an [Exception], the generator's handler
    logs it and yields: the wrapped code runs once and the [with] statement
    ends as that code ended. *)
Lemma trace_tool_span_failure_runs_work E n kw w c e0 (r : exn + pyval) :
  enabled (self w) = true ->
  current_tracer_ctx (self w) = Some c ->
  start_as_current_span E = Some e0 ->
  is_Exception e0 = true ->
  with_trace_tool E n kw (work r) w =
    (match r with inr v => inr (Completed v) | inl e => inl e end,
     {| self := set_tool_call_count (tool_call_count (self w) + 1) (self w);
        trace := trace w ++ [EvSpanEnter c ("tool-" +:+ n);
                             EvLog ERROR "Error tracing tool"; EvWork] |}).
Proof.
  intros Hen Hc Hstart He0.
  unfold with_trace_tool, with_stmt, cm_enter, trace_tool, gen_try, gen_with,
    gen_yield, span_enter, work.
  py_unfold. simpl. rewrite Hen, Hc. simpl. rewrite Hc. simpl.
  rewrite Hstart. simpl. rewrite He0. simpl.
  destruct r as [e | v]; simpl.
  - destruct (decide (e = e)); [| contradiction].
    now rewrite <- !app_assoc.
  - now rewrite <- !app_assoc.
Qed.

(** In a session on a working backend, code that returns normally runs
    once inside an open span, the span is closed, and the value comes
    back. *)
Lemma trace_tool_traces_successful_work E n kw w c (v : pyval) b :
  enabled (self w) = true ->
  current_tracer_ctx (self w) = Some c ->
  start_as_current_span E = None ->
  (forall k x, span_set_attribute E k x = None) ->
  Forall (fun kv : string * pyobj => exists s, py_str (snd kv) = inr s) kw ->
  span_exit E None = inr b ->
  exists evs,
    with_trace_tool E n kw (work (inr v)) w =
      (inr (Completed v),
       {| self := set_tool_call_count (tool_call_count (self w) + 1) (self w);
          trace := ((trace w ++ [EvSpanEnter c ("tool-" +:+ n)]) ++ evs)
                   ++ [EvWork; EvSpanExit None] |}).
Proof.
  intros Hen Hc Hstart Hset Hkw Hexit.
  unfold with_trace_tool, with_stmt, cm_enter, trace_tool, gen_try, gen_with,
    span_enter, span_leave, set_attribute, work.
  py_unfold. simpl. rewrite Hen, Hc. simpl. rewrite Hc. simpl.
  rewrite Hstart. simpl. rewrite !Hset. simpl.
  match goal with
  | |- context [for_each kw ?f ?w1] =>
      destruct (for_each_ok f kw) with (w := w1) as [evs Hevs]
  end.
  { eapply Forall_impl; [exact Hkw |]. intros kv [s Hs] w1. simpl.
    rewrite Hs, Hset. simpl. eexists. reflexivity. }
  rewrite Hevs. simpl. rewrite Hexit. simpl.
  exists ([EvSetAttribute "tool.name" (PStr n);
           EvSetAttribute "tool.call_number" (PInt (tool_call_count (self w) + 1))]
          ++ evs).
  rewrite <- !app_assoc. reflexivity.
Qed.

(** C1. In a session (tracer enabled, trace context open), with a backend
    on which opening the span and setting its attributes succeed and whose
    span [__exit__] lets exceptions through, let the wrapped code raise an
    [Exception] [e].  [contextmanager] throws [e] into the generator at its
    [yield]; the span is closed; the generator's own [except Exception]
    then catches [e], logs it as a tracing error, and yields a second time.
    [contextmanager] answers a generator that yields after [throw] with
    [RuntimeError("generator didn't stop after throw()")], and that is what
    the caller receives in place of [e].  The claim says [e] reaches the
    caller unchanged. *)
Theorem trace_tool_replaces_work_exception
    (E : env) (n : string) (kw : list (string * pyobj)) (w : world)
    (c : trace_ctx) (e : exn) :
  enabled (self w) = true ->
  current_tracer_ctx (self w) = Some c ->
  start_as_current_span E = None ->
  (forall k v, span_set_attribute E k v = None) ->
  Forall (fun kv : string * pyobj => exists s, py_str (snd kv) = inr s) kw ->
  span_exit E (Some e) = inr false ->
  is_Exception e = true ->
  fst (with_trace_tool E n kw (work (inl e : exn + pyval)) w)
    = inl (RuntimeError "generator didn't stop after throw()").
Proof.
  intros Hen Hc Hstart Hset Hkw Hexit Hexc.
  unfold with_trace_tool, with_stmt, cm_enter, trace_tool, gen_try, gen_with,
    span_enter, span_leave, set_attribute, work.
  py_unfold. simpl. rewrite Hen, Hc. simpl. rewrite Hc. simpl.
  rewrite Hstart. simpl. rewrite !Hset. simpl.
  match goal with
  | |- context [for_each kw ?f ?w1] =>
      destruct (for_each_ok f kw) with (w := w1) as [evs Hevs]
  end.
  { eapply Forall_impl; [exact Hkw |]. intros kv [s Hs] w1. simpl.
    rewrite Hs, Hset. simpl. eexists. reflexivity. }
  rewrite Hevs. simpl. rewrite Hexit. simpl. rewrite Hexc. reflexivity.
Qed.

Lemma trace_tool_replaces_work_exception_witness :
  let r := with_trace_tool Scenarios.on_env "web_search"
             [("query", {| py_str := inr "test" |})]
             (work (inl (ValueError "boom") : exn + pyval))
             (Scenarios.at_start Scenarios.in_session) in
  fst r = inl (RuntimeError "generator didn't stop after throw()") /\
  trace (snd r) =
    [EvSpanEnter (TraceCtx 1) "tool-web_search";
     EvSetAttribute "tool.name" (PStr "web_search");
     EvSetAttribute "tool.call_number" (PInt 1);
     EvSetAttribute "tool.query" (PStr "test");
     EvWork;
     EvSpanExit (Some (ValueError "boom"));
     EvLog ERROR "Error tracing tool"].
Proof.
  cbv zeta. split.
  - apply (trace_tool_replaces_work_exception Scenarios.on_env "web_search"
             [("query", {| py_str := inr "test" |})]
             (Scenarios.at_start Scenarios.in_session) (TraceCtx 1)
             (ValueError "boom")); try reflexivity.
    repeat constructor. now exists "test".
  - vm_compute. reflexivity.
Defined.

(** *** The enabled flag *)

Lemma run_call_keeps_gate_closed E c w :
  enabled (self w) = false -> enabled (self (snd (run_call E c w))) = false.
Proof.
  intros H. destruct c; simpl.
  - now rewrite start_session_gate_closed.
  - unfold bind. rewrite with_trace_tool_pass_through by now left.
    rewrite work_runs_once. now destruct wrapped.
  - now rewrite emit_task_reward_gate_closed.
  - now rewrite end_session_gate_closed.
  - unfold bind. now rewrite get_session_stats_gate_closed.
Qed.

Lemma run_calls_keep_gate_closed calls w :
  enabled (self w) = false -> enabled (self (run_calls calls w)) = false.
Proof.
  revert w. induction calls as [| [E c] calls IH]; intros w H; simpl.
  - exact H.
  - apply IH. now apply run_call_keeps_gate_closed.
Qed.

Lemma start_session_rollout_failure E m md w e :
  enabled (self w) = true ->
  store_start_rollout E = inl e ->
  is_Exception e = true ->
  fst (start_session E m md w) = inr tt /\
  enabled (self (snd (start_session E m md w))) = false.
Proof.
  intros Hen Hr He. unfold start_session. py_unfold. simpl.
  rewrite Hen. simpl. destruct (store (self w)); simpl.
  - rewrite Hr. simpl. now rewrite He.
  - split; reflexivity.
Qed.

Lemma int_of_float_raises_Exception x e :
  int_of_float x = inl e -> is_Exception e = true.
Proof.
  unfold int_of_float. destruct (Prim2SF x); intros H; inversion H; reflexivity.
Qed.

Lemma start_session_context_failure E m md w r e :
  enabled (self w) = true ->
  store (self w) = Some tt ->
  store_start_rollout E = inr r ->
  lifespan_enter E = Some e \/
    (lifespan_enter E = None /\ trace_context_aenter E = inl e) ->
  is_Exception e = true ->
  fst (start_session E m md w) = inr tt /\
  enabled (self (snd (start_session E m md w))) = true /\
  tracer (self (snd (start_session E m md w))) = tracer (self w) /\
  store (self (snd (start_session E m md w))) = Some tt /\
  current_tracer_ctx (self (snd (start_session E m md w))) = None /\
  current_rollout (self (snd (start_session E m md w))) = Some r.
Proof.
  intros Hen Hst Hr Hfail He. unfold start_session. py_unfold. simpl.
  rewrite Hen. simpl. rewrite Hst. simpl. rewrite Hr. simpl.
  destruct (tracer (self w)) eqn:Htr; simpl; [| repeat split; congruence].
  destruct Hfail as [Hl | [Hl Hc]]; rewrite Hl; simpl.
  - rewrite He. simpl. repeat split; congruence.
  - destruct (int_of_float (time_time E)) as [e0 | k] eqn:Hn; simpl.
    + rewrite (int_of_float_raises_Exception _ _ Hn). simpl.
      repeat split; congruence.
    + rewrite Hc. simpl. rewrite He. simpl. repeat split; congruence.
Qed.

Lemma start_session_success E m md w r c n :
  enabled (self w) = true ->
  store (self w) = Some tt ->
  tracer (self w) = Some tt ->
  store_start_rollout E = inr r ->
  lifespan_enter E = None ->
  int_of_float (time_time E) = inr n ->
  trace_context_aenter E = inr c ->
  fst (start_session E m md w) = inr tt /\
  enabled (self (snd (start_session E m md w))) = true /\
  current_tracer_ctx (self (snd (start_session E m md w))) = Some c /\
  current_rollout (self (snd (start_session E m md w))) = Some r /\
  session_start_time (self (snd (start_session E m md w))) = Some (time_time E) /\
  tool_call_count (self (snd (start_session E m md w))) = 0.
Proof.
  intros Hen Hst Htr Hr Hl Hn Hc. unfold start_session. py_unfold. simpl.
  rewrite Hen. simpl. rewrite Hst. simpl. rewrite Hr. simpl. rewrite Htr. simpl.
  rewrite Hl. simpl. rewrite Hn. simpl. rewrite Hc. simpl.
  repeat split; congruence.
Qed.

Lemma end_session_keeps_backend E w :
  tracer (self (snd (end_session E w))) = tracer (self w) /\
  store (self (snd (end_session E w))) = store (self w).
Proof.
  unfold end_session. py_unfold. simpl.
  destruct (enabled (self w)); simpl; [| split; reflexivity].
  destruct (current_tracer_ctx (self w)); simpl.
  - destruct (ctx_aexit E) as [e |]; simpl.
    + destruct (is_Exception e); split; reflexivity.
    + destruct (truthy_time _); split; reflexivity.
  - destruct (truthy_time _); split; reflexivity.
Qed.

(** C6. (1) Whatever sequence of calls is made on a tracer whose [enabled]
    is false, [enabled] is false afterwards.  (2) When
    [store.start_rollout] raises an [Exception] in [start_session],
    [enabled] is false after that call and after any calls that follow.
    (3) When the rollout starts and only the opening of the trace context
    raises an [Exception] (in [lifespan(...).__enter__] or in
    [trace_context(...).__aenter__]), [enabled] stays true and the context
    handle is [None]; once that session is ended, a [start_session] on a
    working backend opens a trace context again. *)
Theorem enabled_is_one_way_latch :
  (forall calls w,
     enabled (self w) = false -> enabled (self (run_calls calls w)) = false) /\
  (forall E m md w e calls,
     enabled (self w) = true ->
     store_start_rollout E = inl e ->
     is_Exception e = true ->
     enabled (self (run_calls calls (snd (start_session E m md w)))) = false) /\
  (forall E m md w r e,
     enabled (self w) = true ->
     store (self w) = Some tt ->
     tracer (self w) = Some tt ->
     store_start_rollout E = inr r ->
     lifespan_enter E = Some e \/
       (lifespan_enter E = None /\ trace_context_aenter E = inl e) ->
     is_Exception e = true ->
     let w1 := snd (start_session E m md w) in
     enabled (self w1) = true /\
     current_tracer_ctx (self w1) = None /\
     forall E0 E' m' md' r' c' n',
       store_start_rollout E' = inr r' ->
       lifespan_enter E' = None ->
       int_of_float (time_time E') = inr n' ->
       trace_context_aenter E' = inr c' ->
       let w2 := snd (start_session E' m' md' (snd (end_session E0 w1))) in
       enabled (self w2) = true /\ current_tracer_ctx (self w2) = Some c').
Proof.
  split; [| split].
  - intros calls w. apply run_calls_keep_gate_closed.
  - intros E m md w e calls Hen Hr He. apply run_calls_keep_gate_closed.
    now apply start_session_rollout_failure with (e := e).
  - intros E m md w r e Hen Hst Htr Hr Hfail He. cbv zeta.
    destruct (start_session_context_failure E m md w r e Hen Hst Hr Hfail He)
      as (_ & Hen1 & Htr1 & Hst1 & Hc1 & _).
    split; [exact Hen1 |]. split; [exact Hc1 |].
    intros E0 E' m' md' r' c' n' Hr' Hl' Hn' Hc'.
    set (w1 := snd (start_session E m md w)) in *.
    destruct (end_session_resets E0 w1 Hen1 (or_introl Hc1)) as (_ & Hen2 & _ & _).
    destruct (end_session_keeps_backend E0 w1) as [Htr2 Hst2].
    rewrite Htr1, Htr in Htr2. rewrite Hst1 in Hst2.
    destruct (start_session_success E' m' md' (snd (end_session E0 w1)) r' c' n'
                Hen2 Hst2 Htr2 Hr' Hl' Hn' Hc') as (_ & Hen3 & Hc3 & _).
    split; assumption.
Qed.

Lemma enabled_is_one_way_latch_witness :
  enabled (self (run_calls
                   [(Scenarios.on_env, Call_end_session);
                    (Scenarios.on_env, Call_start_session (PStr "again") None)]
                   (snd (start_session Scenarios.rollout_fails (PStr "task") None
                           (Scenarios.at_start Scenarios.fresh))))) = false /\
  (let w1 := snd (start_session Scenarios.context_fails (PStr "task") None
                    (Scenarios.at_start Scenarios.fresh)) in
   enabled (self w1) = true /\
   current_tracer_ctx (self w1) = None /\
   let w2 := snd (start_session Scenarios.on_env (PStr "next task") None
                    (snd (end_session Scenarios.on_env w1))) in
   enabled (self w2) = true /\ current_tracer_ctx (self w2) = Some (TraceCtx 1)).
Proof.
  destruct enabled_is_one_way_latch as (_ & H2 & H3). split.
  - exact (H2 Scenarios.rollout_fails (PStr "task") None
             (Scenarios.at_start Scenarios.fresh) (RuntimeError "store unavailable")
             _ eq_refl eq_refl eq_refl).
  - cbv zeta.
    destruct (H3 Scenarios.context_fails (PStr "task") None
                (Scenarios.at_start Scenarios.fresh)
                {| rollout_id := "ro-1"; attempt_id := "at-1" |}
                (RuntimeError "no tracer provider")
                eq_refl eq_refl eq_refl eq_refl (or_intror (conj eq_refl eq_refl)) eq_refl)
      as (Hen & Hc & Hnext).
    split; [exact Hen |]. split; [exact Hc |].
    exact (Hnext Scenarios.on_env Scenarios.on_env (PStr "next task") None
             {| rollout_id := "ro-1"; attempt_id := "at-1" |} (TraceCtx 1) 1000
             eq_refl eq_refl eq_refl eq_refl).
Defined.

(** *** The bridge *)

(** With the flag off the constructor assigns every attribute its idle
    value and builds no backend object. *)
Lemma construct_flag_off E b :
  lower (default "false" (ENABLE_AGENT_LIGHTNING E)) <> "true" ->
  construct E b =
    (inr tt, {| g_tracer := Some blank; current_sessions := current_sessions b;
                backend := backend b |}).
Proof.
  intros H. apply String.eqb_neq in H.
  unfold construct, __init__, _check_enabled. py_unfold. rewrite H. simpl.
  reflexivity.
Qed.

Lemma handle_session_start_flag_off E data b md :
  lower (default "false" (ENABLE_AGENT_LIGHTNING (tenv E))) <> "true" ->
  g_tracer b = None ->
  default (Some []) (start_metadata data) = Some md ->
  let sid := default (Some ("session-" +:+ now_timestamp E)) (start_session_id data) in
  handle_session_start E data b =
    (inr (json_response [("success", JBool true);
                         ("session_id", jstr sid);
                         ("enabled", JBool false)]),
     {| g_tracer := Some blank;
        current_sessions :=
          <[sid := {| started_at := now_isoformat E;
                      message := default (PStr "") (start_message data);
                      tool_count := 0 |}]> (current_sessions b);
        backend := backend b ++ [EvLog INFO "Started session"] |}).
Proof.
  intros Hflag Hnone Hmd. cbv zeta.
  unfold handle_session_start, try_except, bind at 1, get.
  rewrite Hnone. simpl is_None. cbv iota.
  unfold bind at 1. rewrite construct_flag_off by exact Hflag.
  rewrite Hmd. unfold bind at 1, ret at 1.
  unfold bind at 1, on_tracer at 1. cbn [g_tracer].
  rewrite start_session_gate_closed by reflexivity.
  unfold bind, modify, blog, on_tracer, getattr, get, ret, set_sessions.
  cbn [g_tracer current_sessions backend self trace enabled blank is_Exception fst snd].
  reflexivity.
Qed.

Lemma handle_session_end_tracing_off E data b :
  tracing_off b = true ->
  handle_session_end E data b =
    (inr (json_response [("success", JBool true);
                         ("ended", JBool false);
                         ("reason", JStr "tracing disabled")]),
     {| g_tracer := g_tracer b;
        current_sessions := delete (end_session_id data) (current_sessions b);
        backend := backend b |}).
Proof.
  intros H. unfold handle_session_end, try_except, bind at 1, get.
  rewrite H. unfold bind, forget, modify, ret, set_sessions.
  destruct (current_sessions b !! end_session_id data) as [s |] eqn:Hs;
    cbn [g_tracer current_sessions backend].
  - reflexivity.
  - rewrite delete_id by exact Hs. now destruct b.
Qed.

Lemma handle_stats_tracing_off E b :
  tracer_enabled b = false ->
  handle_stats E b =
    (inr (json_response [("enabled", JBool false);
                         ("active_sessions", JInt (Z.of_nat (size (current_sessions b))));
                         ("sessions", JSessions (current_sessions b))]),
     b).
Proof.
  intros H. unfold handle_stats, bind, get. rewrite H. reflexivity.
Qed.


(** C8. From the module as loaded, with the feature flag off (unset, or
    set to anything whose lower-case form is not [true]): POST
    /session/start with body [{"message": "hi"}] answers success, the
    generated id [session-<timestamp>] and [enabled: false], and registers
    the session; GET /stats then reports one active session; POST
    /session/end with that id answers success with [ended: false] and
    removes the entry; GET /stats then reports no active session. *)
Theorem flag_off_scenario (E1 E2 E3 E4 : benv) :
  lower (default "false" (ENABLE_AGENT_LIGHTNING (tenv E1))) <> "true" ->
  let sid := "session-" +:+ now_timestamp E1 in
  let entry := {| started_at := now_isoformat E1; message := PStr "hi"; tool_count := 0 |} in
  let r1 := handle_session_start E1 Scenarios.hi initial in
  let r2 := handle_stats E2 (snd r1) in
  let r3 := handle_session_end E3 {| end_session_id := Some sid |} (snd r2) in
  let r4 := handle_stats E4 (snd r3) in
  fst r1 = inr (json_response [("success", JBool true);
                               ("session_id", JStr sid);
                               ("enabled", JBool false)]) /\
  current_sessions (snd r1) !! Some sid = Some entry /\
  fst r2 = inr (json_response [("enabled", JBool false);
                               ("active_sessions", JInt 1);
                               ("sessions", JSessions {[Some sid := entry]})]) /\
  fst r3 = inr (json_response [("success", JBool true);
                               ("ended", JBool false);
                               ("reason", JStr "tracing disabled")]) /\
  current_sessions (snd r3) !! Some sid = None /\
  fst r4 = inr (json_response [("enabled", JBool false);
                               ("active_sessions", JInt 0);
                               ("sessions", JSessions ∅)]).
Proof.
  intros Hflag. cbv zeta.
  rewrite (handle_session_start_flag_off E1 Scenarios.hi initial [] Hflag eq_refl eq_refl).
  cbn [fst snd Scenarios.hi start_session_id start_message default initial
       current_sessions backend app jstr].
  rewrite insert_empty.
  rewrite handle_stats_tracing_off by reflexivity.
  cbn [fst snd current_sessions].
  rewrite handle_session_end_tracing_off by reflexivity.
  cbn [fst snd current_sessions end_session_id g_tracer backend].
  rewrite handle_stats_tracing_off by reflexivity.
  cbn [fst snd current_sessions].
  rewrite delete_singleton_eq, map_size_singleton, map_size_empty.
  rewrite lookup_singleton_eq, lookup_empty.
  repeat split.
Qed.

Lemma flag_off_scenario_witness :
  let sid := "session-1700000000.123456" in
  let entry := {| started_at := "2023-11-14T22:13:20.123456";
                  message := PStr "hi"; tool_count := 0 |} in
  let r1 := handle_session_start Scenarios.flag_off Scenarios.hi initial in
  let r2 := handle_stats Scenarios.flag_off (snd r1) in
  let r3 := handle_session_end Scenarios.flag_off {| end_session_id := Some sid |} (snd r2) in
  let r4 := handle_stats Scenarios.flag_off (snd r3) in
  fst r1 = inr (json_response [("success", JBool true);
                               ("session_id", JStr sid);
                               ("enabled", JBool false)]) /\
  fst r2 = inr (json_response [("enabled", JBool false);
                               ("active_sessions", JInt 1);
                               ("sessions", JSessions {[Some sid := entry]})]) /\
  fst r3 = inr (json_response [("success", JBool true);
                               ("ended", JBool false);
                               ("reason", JStr "tracing disabled")]) /\
  fst r4 = inr (json_response [("enabled", JBool false);
                               ("active_sessions", JInt 0);
                               ("sessions", JSessions ∅)]).
Proof.
  cbv zeta.
  assert (Hflag : lower (default "false"
                           (ENABLE_AGENT_LIGHTNING (tenv Scenarios.flag_off))) <> "true")
    by (cbv; discriminate).
  destruct (flag_off_scenario Scenarios.flag_off Scenarios.flag_off
              Scenarios.flag_off Scenarios.flag_off Hflag)
    as (H1 & _ & H2 & H3 & _ & H4).
  repeat split; assumption.
Defined.

Lemma handle_tool_trace_enabled E data b t :
  g_tracer b = Some t ->
  enabled t = true ->
  handle_tool_trace E data b =
    (inr (json_response [("success", JBool true);
                         ("traced", JBool true);
                         ("tool_name", jstr (trace_tool_name data))]),
     {| g_tracer := g_tracer b;
        current_sessions :=
          match current_sessions b !! trace_session_id data with
          | None => current_sessions b
          | Some s =>
              <[trace_session_id data := {| started_at := started_at s;
                                            message := message s;
                                            tool_count := tool_count s + 1 |}]>
                (current_sessions b)
          end;
        backend := backend b ++ [EvLog INFO "Tool trace"] |}).
Proof.
  intros Ht Hen.
  unfold handle_tool_trace, try_except, bind at 1, get, tracing_off.
  rewrite Ht, Hen. cbn [negb].
  unfold bind, blog, modify, get, ret, set_sessions.
  cbn [g_tracer current_sessions backend].
  destruct (current_sessions b !! trace_session_id data) as [s |];
    cbn [g_tracer current_sessions backend]; now rewrite ?Ht.
Qed.

(** C10. With tracing enabled, POST /tool/trace answers success with
    [traced: true] and the tool name it was given, for every session id;
    the tracer is not touched.  When the id is not in the registry the
    registry is left as it was: no entry is created and no counter moves.
    When it is, that entry's [tool_count] goes up by one. *)
Theorem tool_trace_counts_registered_only
    (E : benv) (data : trace_request) (b : bridge) (t : OpenClawLightningTracer) :
  g_tracer b = Some t ->
  enabled t = true ->
  let r := handle_tool_trace E data b in
  fst r = inr (json_response [("success", JBool true);
                              ("traced", JBool true);
                              ("tool_name", jstr (trace_tool_name data))]) /\
  g_tracer (snd r) = Some t /\
  current_sessions (snd r) =
    match current_sessions b !! trace_session_id data with
    | None => current_sessions b
    | Some s =>
        <[trace_session_id data := {| started_at := started_at s;
                                      message := message s;
                                      tool_count := tool_count s + 1 |}]>
          (current_sessions b)
    end.
Proof.
  intros Ht Hen. cbv zeta.
  rewrite (handle_tool_trace_enabled E data b t Ht Hen).
  cbn [fst snd g_tracer current_sessions]. repeat split. exact Ht.
Qed.

Lemma tool_trace_counts_registered_only_witness :
  let b := {| g_tracer := Some Scenarios.in_session;
              current_sessions :=
                {[Some "s-1" := {| started_at := "2023-11-14T22:13:20";
                                   message := PStr "hi"; tool_count := 2 |}]};
              backend := [] |} in
  let r := handle_tool_trace Scenarios.flag_off
             {| trace_session_id := Some "s-unknown"; trace_tool_name := Some "read" |} b in
  fst r = inr (json_response [("success", JBool true);
                              ("traced", JBool true);
                              ("tool_name", JStr "read")]) /\
  current_sessions (snd r) = current_sessions b.
Proof.
  cbv zeta.
  destruct (tool_trace_counts_registered_only Scenarios.flag_off
              {| trace_session_id := Some "s-unknown"; trace_tool_name := Some "read" |}
              {| g_tracer := Some Scenarios.in_session;
                 current_sessions :=
                   {[Some "s-1" := {| started_at := "2023-11-14T22:13:20";
                                      message := PStr "hi"; tool_count := 2 |}]};
                 backend := [] |}
              Scenarios.in_session eq_refl eq_refl) as (H1 & _ & H2).
  split; [exact H1 |].
  rewrite H2. cbn [current_sessions trace_session_id].
  now rewrite lookup_singleton_ne by discriminate.
Defined.


(* ===================================================================== *)
(** ** Further properties *)
(* ===================================================================== *)

From Stdlib Require Import Ascii.

(** *** Construction *)


Lemma lower_ascii_t c : lower_ascii c = "t"%char <-> c = "t"%char \/ c = "T"%char.
Proof.
  destruct c as [[] [] [] [] [] [] [] []]; vm_compute;
    (split; [intros H; first [discriminate H | now left | now right]
            | intros [H | H]; first [discriminate H | reflexivity]]).
Qed.

Lemma lower_ascii_r c : lower_ascii c = "r"%char <-> c = "r"%char \/ c = "R"%char.
Proof.
  destruct c as [[] [] [] [] [] [] [] []]; vm_compute;
    (split; [intros H; first [discriminate H | now left | now right]
            | intros [H | H]; first [discriminate H | reflexivity]]).
Qed.

Lemma lower_ascii_u c : lower_ascii c = "u"%char <-> c = "u"%char \/ c = "U"%char.
Proof.
  destruct c as [[] [] [] [] [] [] [] []]; vm_compute;
    (split; [intros H; first [discriminate H | now left | now right]
            | intros [H | H]; first [discriminate H | reflexivity]]).
Qed.

Lemma lower_ascii_e c : lower_ascii c = "e"%char <-> c = "e"%char \/ c = "E"%char.
Proof.
  destruct c as [[] [] [] [] [] [] [] []]; vm_compute;
    (split; [intros H; first [discriminate H | now left | now right]
            | intros [H | H]; first [discriminate H | reflexivity]]).
Qed.

(** The values of the flag that [lower] turns into [true]. *)
Lemma lower_is_true s :
  lower s = "true" <->
  exists a b c d,
    s = String a (String b (String c (String d EmptyString))) /\
    (a = "t"%char \/ a = "T"%char) /\ (b = "r"%char \/ b = "R"%char) /\
    (c = "u"%char \/ c = "U"%char) /\ (d = "e"%char \/ d = "E"%char).
Proof.
  split.
  - destruct s as [| a [| b [| c [| d [| x s]]]]]; simpl; intros H; try discriminate H.
    injection H as Ha Hb Hc Hd.
    exists a, b, c, d. split; [reflexivity |].
    rewrite <- lower_ascii_t, <- lower_ascii_r, <- lower_ascii_u, <- lower_ascii_e.
    auto.
  - intros (a & b & c & d & -> & Ha & Hb & Hc & Hd). simpl.
    apply lower_ascii_t in Ha. apply lower_ascii_r in Hb.
    apply lower_ascii_u in Hc. apply lower_ascii_e in Hd.
    now rewrite Ha, Hb, Hc, Hd.
Qed.

(** X1. The feature flag opens the gate exactly for the sixteen spellings
    of [true] in upper and lower case: with the library present,
    [_check_enabled] answers [True] for those and [False] for every other
    value and for an unset variable. *)
Theorem check_enabled_spellings (E : env) (w : world) :
  AGENT_LIGHTNING_AVAILABLE E = true ->
  (_check_enabled E w = (inr true, w) <->
   exists a b c d,
     ENABLE_AGENT_LIGHTNING E = Some (String a (String b (String c (String d EmptyString)))) /\
     (a = "t"%char \/ a = "T"%char) /\ (b = "r"%char \/ b = "R"%char) /\
     (c = "u"%char \/ c = "U"%char) /\ (d = "e"%char \/ d = "E"%char)) /\
  (_check_enabled E w = (inr true, w) \/ _check_enabled E w = (inr false, w)).
Proof.
  intros Hlib. unfold _check_enabled. rewrite Hlib.
  destruct (String.eqb_spec (lower (default "false" (ENABLE_AGENT_LIGHTNING E))) "true")
    as [Heq | Hne]; simpl; unfold ret; (split; [| auto]).
  - split; [intros _ | reflexivity].
    apply lower_is_true in Heq as (a & b & c & d & Hs & H).
    destruct (ENABLE_AGENT_LIGHTNING E) as [s |]; simpl in Hs; [| discriminate Hs].
    subst s. now exists a, b, c, d.
  - split; [intros H; discriminate H |].
    intros (a & b & c & d & Hs & H). exfalso. apply Hne.
    rewrite Hs. simpl default. apply lower_is_true. now exists a, b, c, d.
Qed.

Lemma check_enabled_spellings_witness :
  _check_enabled (Scenarios.healthy (Some "TrUe") 0%float) (Scenarios.at_start blank)
    = (inr true, Scenarios.at_start blank) /\
  _check_enabled (Scenarios.healthy (Some "1") 0%float) (Scenarios.at_start blank)
    = (inr false, Scenarios.at_start blank).
Proof.
  split.
  - apply (check_enabled_spellings (Scenarios.healthy (Some "TrUe") 0%float)
             (Scenarios.at_start blank) eq_refl).
    exists "T"%char, "r"%char, "U"%char, "e"%char. auto 10.
  - reflexivity.
Defined.

(** X2. The constructor raises in exactly one situation (interrupts
    apart): the flag is on and the library is missing.  [_check_enabled]
    then logs through [self.logger] before [__init__] has assigned it, and
    the [AttributeError] leaves the constructor. *)
Theorem constructor_raises_without_library (E : env) :
  (forall e, OtelTracer_new E = Some e -> is_Exception e = true) ->
  (forall e, InMemoryLightningStore_new E = Some e -> is_Exception e = true) ->
  (lower (default "false" (ENABLE_AGENT_LIGHTNING E)) = "true" /\
   AGENT_LIGHTNING_AVAILABLE E = false ->
   new E = inl (AttributeError "'OpenClawLightningTracer' object has no attribute 'logger'")) /\
  (forall e, new E = inl e ->
   lower (default "false" (ENABLE_AGENT_LIGHTNING E)) = "true" /\
   AGENT_LIGHTNING_AVAILABLE E = false).
Proof.
  intros Ho Hs. unfold new, __init__, _check_enabled. py_unfold.
  destruct (String.eqb_spec (lower (default "false" (ENABLE_AGENT_LIGHTNING E))) "true")
    as [Heq | Hne]; simpl.
  - destruct (AGENT_LIGHTNING_AVAILABLE E); simpl.
    + split; [intros [_ H]; discriminate H |].
      intros e. destruct (OtelTracer_new E) as [e1 |]; simpl.
      * rewrite (Ho e1 eq_refl). simpl. discriminate.
      * destruct (InMemoryLightningStore_new E) as [e2 |]; simpl.
        -- rewrite (Hs e2 eq_refl). simpl. discriminate.
        -- discriminate.
    + split; [reflexivity | auto].
  - split; [intros [H _]; contradiction | discriminate].
Qed.

Lemma constructor_raises_without_library_witness :
  new {| ENABLE_AGENT_LIGHTNING := Some "true";
         AGENT_LIGHTNING_AVAILABLE := false;
         OtelTracer_new := None;
         InMemoryLightningStore_new := None;
         time_time := 0%float;
         store_start_rollout := inl (RuntimeError "unused");
         lifespan_enter := None;
         trace_context_aenter := inl (RuntimeError "unused");
         ctx_aexit := None;
         start_as_current_span := None;
         span_set_attribute := fun _ _ => None;
         span_exit := fun _ => inr false;
         emit_reward := fun _ => None |}
  = inl (AttributeError "'OpenClawLightningTracer' object has no attribute 'logger'").
Proof.
  apply constructor_raises_without_library; try discriminate.
  split; reflexivity.
Defined.

(** X3. What the constructor returns.  The tracer is enabled exactly when
    the flag is on, the library is present, and both backend objects were
    built; a backend constructor that raises an [Exception] yields a
    disabled tracer, not an error.  An enabled tracer holds both backend
    objects, and every new tracer is IDLE with its counter at zero. *)
Theorem constructor_gate (E : env) (s : OpenClawLightningTracer) :
  new E = inr s ->
  (enabled s = true <->
   lower (default "false" (ENABLE_AGENT_LIGHTNING E)) = "true" /\
   AGENT_LIGHTNING_AVAILABLE E = true /\
   OtelTracer_new E = None /\
   InMemoryLightningStore_new E = None) /\
  (enabled s = true -> tracer s = Some tt /\ store s = Some tt) /\
  idle s /\
  tool_call_count s = 0.
Proof.
  unfold new, __init__, _check_enabled, idle. py_unfold.
  destruct (String.eqb_spec (lower (default "false" (ENABLE_AGENT_LIGHTNING E))) "true")
    as [Heq | Hne]; simpl.
  - destruct (AGENT_LIGHTNING_AVAILABLE E); simpl; [| discriminate].
    destruct (OtelTracer_new E) as [e1 |]; simpl.
    + destruct (is_Exception e1); simpl; [| discriminate].
      intros H. injection H as <-. simpl.
      repeat split; try discriminate. intros (_ & _ & H & _). discriminate H.
    + destruct (InMemoryLightningStore_new E) as [e2 |]; simpl.
      * destruct (is_Exception e2); simpl; [| discriminate].
        intros H. injection H as <-. simpl.
        repeat split; try discriminate. intros (_ & _ & _ & H). discriminate H.
      * intros H. injection H as <-. simpl. repeat split; auto.
  - intros H. injection H as <-. simpl.
    repeat split; try discriminate. intros (H & _). contradiction.
Qed.

Lemma constructor_gate_witness :
  new Scenarios.close_fails = inr Scenarios.fresh /\
  enabled Scenarios.fresh = true /\ idle Scenarios.fresh.
Proof.
  assert (H : new Scenarios.close_fails = inr Scenarios.fresh) by reflexivity.
  split; [exact H |].
  destruct (constructor_gate Scenarios.close_fails Scenarios.fresh H) as (He & _ & Hi & _).
  split; [| exact Hi].
  apply He. repeat split.
Defined.

(** *** The session life cycle *)

(** [start_session] lets no [Exception] escape. *)
Lemma start_session_catches E m md w :
  raises_only_Exceptions E ->
  fst (start_session E m md w) = inr tt.
Proof.
  intros (Hr & Hl & Hc & _). unfold start_session. py_unfold. simpl.
  destruct (enabled (self w)); simpl; [| reflexivity].
  destruct (store (self w)); simpl; [| reflexivity].
  destruct (store_start_rollout E) as [e | r] eqn:Her; simpl.
  { now rewrite (Hr e eq_refl). }
  destruct (tracer (self w)); simpl; [| reflexivity].
  destruct (lifespan_enter E) as [e |] eqn:Hel; simpl.
  { now rewrite (Hl e eq_refl). }
  destruct (int_of_float (time_time E)) as [e | n] eqn:Hn; simpl.
  { now rewrite (int_of_float_raises_Exception _ _ Hn). }
  destruct (trace_context_aenter E) as [e | c] eqn:Hec; simpl.
  { now rewrite (Hc e eq_refl). }
  reflexivity.
Qed.

(** X4. A session that starts and ends on a working backend leaves the
    tracer as it found it: from an enabled, IDLE tracer with its counter at
    zero, [start_session] followed by [end_session] gives back the same
    attribute values, and the context that was opened is the one that is
    closed. *)
Theorem session_round_trip (E1 E2 : env) m md (w : world) r c n :
  enabled (self w) = true ->
  tracer (self w) = Some tt ->
  store (self w) = Some tt ->
  idle (self w) ->
  tool_call_count (self w) = 0 ->
  store_start_rollout E1 = inr r ->
  lifespan_enter E1 = None ->
  int_of_float (time_time E1) = inr n ->
  trace_context_aenter E1 = inr c ->
  ctx_aexit E2 = None ->
  let w1 := snd (start_session E1 m md w) in
  let w2 := snd (end_session E2 w1) in
  active (self w1) /\
  self w2 = self w /\
  In (EvCtxExit c) (trace w2).
Proof.
  intros Hen Htr Hst (Hc & Hro & Ht) Hn0 Hr Hl Hn Hctx Hx. cbv zeta.
  destruct w as [[en tr st ro cx t0 k] evs]. simpl in *. subst.
  unfold start_session. py_unfold. simpl. rewrite Hr. simpl. rewrite Hl. simpl.
  rewrite Hn. simpl. rewrite Hctx. simpl.
  split; [now exists c |].
  unfold end_session. py_unfold. simpl. rewrite Hx. simpl.
  destruct (truthy_float (time_time E1)); simpl;
    (split; [reflexivity |]); rewrite !in_app_iff; simpl; auto 10.
Qed.

Lemma session_round_trip_witness :
  let w1 := snd (start_session Scenarios.on_env (PStr "task") None
                   (Scenarios.at_start Scenarios.fresh)) in
  let w2 := snd (end_session Scenarios.on_env w1) in
  active (self w1) /\ self w2 = Scenarios.fresh /\ In (EvCtxExit (TraceCtx 1)) (trace w2).
Proof.
  apply (session_round_trip Scenarios.on_env Scenarios.on_env (PStr "task") None
           (Scenarios.at_start Scenarios.fresh)
           {| rollout_id := "ro-1"; attempt_id := "at-1" |} (TraceCtx 1) 1000);
    try reflexivity.
  repeat split.
Defined.

(** X5. [start_session] on a tracer that is already in a session does not
    end that session: on a working backend the new rollout and the new
    context replace the old ones, the counter restarts at zero, and the
    only backend calls made are the rollout start and the two context
    entries; the old context's [__aexit__] is never called. *)
Theorem start_session_overwrites_open_session (E : env) m md (w : world) c0 r c n :
  enabled (self w) = true ->
  tracer (self w) = Some tt ->
  store (self w) = Some tt ->
  current_tracer_ctx (self w) = Some c0 ->
  store_start_rollout E = inr r ->
  lifespan_enter E = None ->
  int_of_float (time_time E) = inr n ->
  trace_context_aenter E = inr c ->
  let w1 := snd (start_session E m md w) in
  current_tracer_ctx (self w1) = Some c /\
  current_rollout (self w1) = Some r /\
  session_start_time (self w1) = Some (time_time E) /\
  tool_call_count (self w1) = 0 /\
  exists input,
    trace w1 = trace w ++ [EvStartRollout input;
                           EvLifespanEnter;
                           EvTraceContextEnter ("openclaw-session-" +:+ pretty n)
                             (rollout_id r) (attempt_id r);
                           EvLog DEBUG "Started session tracking"].
Proof.
  intros Hen Htr Hst Hc0 Hr Hl Hn Hctx. cbv zeta.
  unfold start_session. py_unfold. simpl.
  rewrite Hen. simpl. rewrite Hst. simpl. rewrite Hr. simpl. rewrite Htr. simpl.
  rewrite Hl. simpl. rewrite Hn. simpl. rewrite Hctx. simpl.
  repeat split. eexists. rewrite <- !app_assoc. reflexivity.
Qed.

Lemma start_session_overwrites_open_session_witness :
  let w1 := snd (start_session (Scenarios.healthy (Some "true") 2000%float)
                   (PStr "second task") None
                   (Scenarios.at_start
                      (set_current_tracer_ctx (Some (TraceCtx 7))
                         (set_tool_call_count 4 Scenarios.in_session)))) in
  current_tracer_ctx (self w1) = Some (TraceCtx 1) /\
  tool_call_count (self w1) = 0 /\
  ~ In (EvCtxExit (TraceCtx 7)) (trace w1).
Proof.
  cbv zeta.
  destruct (start_session_overwrites_open_session
              (Scenarios.healthy (Some "true") 2000%float) (PStr "second task") None
              (Scenarios.at_start
                 (set_current_tracer_ctx (Some (TraceCtx 7))
                    (set_tool_call_count 4 Scenarios.in_session)))
              (TraceCtx 7) {| rollout_id := "ro-1"; attempt_id := "at-1" |}
              (TraceCtx 1) 2000 eq_refl eq_refl eq_refl eq_refl eq_refl eq_refl
              eq_refl eq_refl) as (Hc & _ & _ & Hn & input & Htr).
  split; [exact Hc |]. split; [exact Hn |].
  rewrite Htr. simpl. intros [H | [H | [H | [H | []]]]]; discriminate H.
Defined.

(** *** More on trace_tool *)

(** A loop whose iterations leave the tracer alone leaves the tracer
    alone, however it ends. *)
Lemma for_each_self {A} (f : A -> M world unit) (l : list A) :
  (forall x w, self (snd (f x w)) = self w) ->
  forall w, self (snd (for_each l f w)) = self w.
Proof.
  intros Hf. induction l as [| x l IH]; intros w; simpl.
  - reflexivity.
  - unfold bind. specialize (Hf x w). destruct (f x w) as [[e | []] w1]; simpl in *.
    + exact Hf.
    + now rewrite IH.
Qed.

(** A loop that fails at one element after a prefix of iterations that
    return normally stops there with that exception. *)
Lemma for_each_stops {A} (f : A -> M world unit) (P : list event -> Prop)
    (pre post : list A) (bad : A) (e0 : exn) :
  P [] ->
  (forall l1 l2, P l1 -> P l2 -> P (l1 ++ l2)) ->
  Forall (fun x => forall w, exists evs,
            P evs /\ f x w = (inr tt, {| self := self w; trace := trace w ++ evs |})) pre ->
  (forall w, f bad w = (inl e0, w)) ->
  forall w, exists evs,
    P evs /\
    for_each (pre ++ bad :: post) f w
      = (inl e0, {| self := self w; trace := trace w ++ evs |}).
Proof.
  intros Hnil Happ Hpre Hbad. induction Hpre as [| x pre Hx _ IH]; intros w; simpl.
  - exists []. split; [exact Hnil |]. unfold bind. rewrite Hbad, app_nil_r. now destruct w.
  - unfold bind. destruct (Hx w) as (evs1 & HP1 & ->).
    destruct (IH {| self := self w; trace := trace w ++ evs1 |}) as (evs2 & HP2 & ->).
    simpl. exists (evs1 ++ evs2). split; [now apply Happ |]. now rewrite app_assoc.
Qed.

(** A loop whose every iteration returns normally and records one event
    related to its element records those events in order. *)
Lemma for_each_rel {A} (f : A -> M world unit) (R : A -> event -> Prop) (l : list A) :
  Forall (fun x => exists ev,
            R x ev /\
            forall w, f x w = (inr tt, {| self := self w; trace := trace w ++ [ev] |})) l ->
  forall w, exists evs,
    Forall2 R l evs /\
    for_each l f w = (inr tt, {| self := self w; trace := trace w ++ evs |}).
Proof.
  induction 1 as [| x l (ev & HR & Hx) _ IH]; intros w; simpl.
  - exists []. split; [constructor |]. unfold ret. rewrite app_nil_r. now destruct w.
  - unfold bind. rewrite Hx.
    destruct (IH {| self := self w; trace := trace w ++ [ev] |}) as (evs & HF & ->).
    simpl. exists (ev :: evs). split; [now constructor |]. now rewrite <- app_assoc.
Qed.


(** X6. In a session every [with trace_tool(...)] raises the tool counter
    by exactly one and touches no other attribute of the tracer, whatever
    the backend answers and however the wrapped code ends: the counter is
    incremented before any tracing is attempted. *)
Theorem trace_tool_counts_every_call
    (E : env) (n : string) (kw : list (string * pyobj)) (r : exn + pyval)
    (w : world) (c : trace_ctx) :
  enabled (self w) = true ->
  current_tracer_ctx (self w) = Some c ->
  self (snd (with_trace_tool E n kw (work r) w))
    = set_tool_call_count (tool_call_count (self w) + 1) (self w).
Proof.
  intros Hen Hc.
  unfold with_trace_tool, with_stmt, cm_enter, cm_exit, gen_close, trace_tool,
    gen_try, gen_with, gen_yield, leave_with, span_enter, span_leave, set_attribute, work.
  py_unfold. simpl. rewrite Hen, Hc. simpl. rewrite Hc. simpl.
  repeat first
    [ progress (unfold leave_with; py_unfold; simpl)
    | match goal with
      | |- context [for_each kw ?f ?w1] =>
          let H := fresh "Hself" in
          assert (H : self (snd (for_each kw f w1)) = self w1)
            by (apply for_each_self; intros; simpl; repeat break_match; reflexivity);
          destruct (for_each kw f w1) as [[? | []] ?]; simpl in H; simpl
      end
    | break_match ];
    simpl; congruence.
Qed.

Lemma trace_tool_counts_every_call_witness :
  self (snd (with_trace_tool Scenarios.close_fails "read"
               [("path", {| py_str := inl (ValueError "bad __str__") |})]
               (work (inl (ValueError "boom") : exn + pyval))
               (Scenarios.at_start (set_tool_call_count 4 Scenarios.in_session))))
    = set_tool_call_count 5 Scenarios.in_session.
Proof.
  apply (trace_tool_counts_every_call Scenarios.close_fails "read"
           [("path", {| py_str := inl (ValueError "bad __str__") |})]
           (inl (ValueError "boom"))
           (Scenarios.at_start (set_tool_call_count 4 Scenarios.in_session))
           (TraceCtx 1)); reflexivity.
Defined.

(** The traced run of code that returns normally, as an equation. *)
Lemma trace_tool_runs E n kw w c (v : pyval) b :
  enabled (self w) = true ->
  current_tracer_ctx (self w) = Some c ->
  start_as_current_span E = None ->
  (forall k x, span_set_attribute E k x = None) ->
  Forall (fun kv : string * pyobj => exists s, py_str (snd kv) = inr s) kw ->
  span_exit E None = inr b ->
  with_trace_tool E n kw (work (inr v)) w =
    (inr (Completed v),
     {| self := set_tool_call_count (tool_call_count (self w) + 1) (self w);
        trace := trace w ++
                 [EvSpanEnter c ("tool-" +:+ n);
                  EvSetAttribute "tool.name" (PStr n);
                  EvSetAttribute "tool.call_number" (PInt (tool_call_count (self w) + 1))]
                 ++ map (fun kv : string * pyobj =>
                           EvSetAttribute ("tool." +:+ fst kv)
                             (PStr (take_str 200
                                      (match py_str (snd kv) with
                                       | inr s => s
                                       | inl _ => ""
                                       end)))) kw
                 ++ [EvWork; EvSpanExit None] |}).
Proof.
  intros Hen Hc Hstart Hset Hkw Hexit.
  unfold with_trace_tool, with_stmt, cm_enter, trace_tool, gen_try, gen_with,
    span_enter, span_leave, set_attribute, work.
  py_unfold. simpl. rewrite Hen, Hc. simpl. rewrite Hc. simpl.
  rewrite Hstart. simpl. rewrite !Hset. simpl.
  match goal with
  | |- context [for_each kw ?f ?w1] =>
      destruct (for_each_rel f
                  (fun (kv : string * pyobj) ev =>
                     ev = EvSetAttribute ("tool." +:+ fst kv)
                            (PStr (take_str 200
                                     (match py_str (snd kv) with
                                      | inr s => s
                                      | inl _ => ""
                                      end)))) kw)
        with (w := w1) as (attrs & Hrel & Hevs)
  end.
  { eapply Forall_impl; [exact Hkw |]. intros kv [s Hs]. simpl.
    eexists. split; [reflexivity |].
    intros w1. rewrite Hs, Hset. reflexivity. }
  rewrite Hevs. simpl. rewrite Hexit. simpl.
  assert (Hattrs : attrs = map (fun kv : string * pyobj =>
                                  EvSetAttribute ("tool." +:+ fst kv)
                                    (PStr (take_str 200
                                             (match py_str (snd kv) with
                                              | inr s => s
                                              | inl _ => ""
                                              end)))) kw).
  { clear -Hrel. induction Hrel as [| kv ev l l' -> _ IH]; simpl; [reflexivity |].
    now rewrite IH. }
  rewrite <- Hattrs. rewrite <- !app_assoc. reflexivity.
Qed.



(** X8. A failure of span setup does not keep the wrapped code from
    running.  When opening the span raises an [Exception], or when [str]
    of a keyword argument raises one while the attributes are being set
    (and the span's [__exit__] lets it through), the generator logs the
    failure and yields: the wrapped code runs exactly once, after the
    failure, and the [with] statement ends as that code ended. *)
Theorem trace_tool_setup_failure_runs_work
    (E : env) (n : string) (kw : list (string * pyobj)) (w : world)
    (c : trace_ctx) (e0 : exn) (r : exn + pyval) :
  enabled (self w) = true ->
  current_tracer_ctx (self w) = Some c ->
  is_Exception e0 = true ->
  start_as_current_span E = Some e0 \/
    (start_as_current_span E = None /\
     (forall k x, span_set_attribute E k x = None) /\
     span_exit E (Some e0) = inr false /\
     exists pre bad post,
       kw = pre ++ bad :: post /\
       Forall (fun kv : string * pyobj => exists s, py_str (snd kv) = inr s) pre /\
       py_str (snd bad) = inl e0) ->
  exists evs,
    ~ In EvWork evs /\
    with_trace_tool E n kw (work r) w =
      (match r with inr v => inr (Completed v) | inl e => inl e end,
       {| self := set_tool_call_count (tool_call_count (self w) + 1) (self w);
          trace := trace w ++ evs ++ [EvLog ERROR "Error tracing tool"; EvWork] |}).
Proof.
  intros Hen Hc He0 [Hstart | (Hstart & Hset & Hexit & pre & bad & post & -> & Hpre & Hbad)].
  - exists [EvSpanEnter c ("tool-" +:+ n)]. split.
    + simpl. intros [H | []]. discriminate H.
    + now rewrite (trace_tool_span_failure_runs_work E n kw w c e0 r Hen Hc Hstart He0).
  - unfold with_trace_tool, with_stmt, cm_enter, trace_tool, gen_try, gen_with,
      gen_yield, leave_with, span_enter, span_leave, set_attribute, work.
    py_unfold. simpl. rewrite Hen, Hc. simpl. rewrite Hc. simpl.
    rewrite Hstart. simpl. rewrite !Hset. simpl.
    match goal with
    | |- context [for_each (pre ++ bad :: post) ?f ?w1] =>
        destruct (for_each_stops f (fun evs => ~ In EvWork evs) pre post bad e0)
          with (w := w1) as (evs & Hno & Hevs)
    end.
    { intros []. }
    { intros l1 l2 H1 H2 H. apply in_app_or in H. tauto. }
    { eapply Forall_impl; [exact Hpre |]. intros kv [s Hs] w1. simpl.
      rewrite Hs, Hset. simpl. eexists. split; [| reflexivity].
      simpl. intros [H | []]. discriminate H. }
    { intros w1. now rewrite Hbad. }
    rewrite Hevs. simpl. py_unfold. simpl. rewrite Hexit. simpl. rewrite He0. simpl.
    exists ([EvSpanEnter c ("tool-" +:+ n);
             EvSetAttribute "tool.name" (PStr n);
             EvSetAttribute "tool.call_number" (PInt (tool_call_count (self w) + 1))]
            ++ evs ++ [EvSpanExit (Some e0)]).
    split.
    + intros H. simpl in H. destruct H as [H | [H | [H | H]]]; try discriminate H.
      apply in_app_or in H as [H | [H | []]]; [tauto | discriminate H].
    + destruct r as [e | v]; simpl.
      * destruct (decide (e = e)); [| contradiction].
        f_equal. f_equal. now rewrite <- !app_assoc.
      * f_equal. f_equal. now rewrite <- !app_assoc.
Qed.

Lemma trace_tool_setup_failure_runs_work_witness :
  exists evs,
    ~ In EvWork evs /\
    with_trace_tool Scenarios.on_env "write"
      [("path", {| py_str := inr "summary.md" |});
       ("bytes", {| py_str := inl (ValueError "bad __str__") |})]
      (work (inr (PInt 2500))) (Scenarios.at_start Scenarios.in_session) =
      (inr (Completed (PInt 2500)),
       {| self := set_tool_call_count 1 Scenarios.in_session;
          trace := evs ++ [EvLog ERROR "Error tracing tool"; EvWork] |}).
Proof.
  apply (trace_tool_setup_failure_runs_work Scenarios.on_env "write"
           [("path", {| py_str := inr "summary.md" |});
            ("bytes", {| py_str := inl (ValueError "bad __str__") |})]
           (Scenarios.at_start Scenarios.in_session) (TraceCtx 1)
           (ValueError "bad __str__") (inr (PInt 2500)) eq_refl eq_refl eq_refl).
  right. repeat split.
  exists [("path", {| py_str := inr "summary.md" |})],
         ("bytes", {| py_str := inl (ValueError "bad __str__") |}), [].
  repeat split. repeat constructor. now exists "summary.md".
Defined.

(** X9. When the wrapped code has returned and closing the span then
    raises an [Exception], the generator's handler catches it and yields a
    second time, and the [with] statement ends in
    [RuntimeError("generator didn't stop")]: a tracing failure after the
    fact replaces the normal completion of code that ran once and
    succeeded. *)
Theorem trace_tool_span_close_failure
    (E : env) (n : string) (kw : list (string * pyobj)) (w : world)
    (c : trace_ctx) (v : pyval) (e : exn) :
  enabled (self w) = true ->
  current_tracer_ctx (self w) = Some c ->
  start_as_current_span E = None ->
  (forall k x, span_set_attribute E k x = None) ->
  Forall (fun kv : string * pyobj => exists s, py_str (snd kv) = inr s) kw ->
  span_exit E None = inl e ->
  is_Exception e = true ->
  exists evs,
    ~ In EvWork evs /\
    with_trace_tool E n kw (work (inr v)) w =
      (inl (RuntimeError "generator didn't stop"),
       {| self := set_tool_call_count (tool_call_count (self w) + 1) (self w);
          trace := trace w ++ evs ++
                   [EvWork; EvSpanExit None; EvLog ERROR "Error tracing tool"] |}).
Proof.
  intros Hen Hc Hstart Hset Hkw Hexit He.
  unfold with_trace_tool, with_stmt, cm_enter, trace_tool, gen_try, gen_with,
    span_enter, span_leave, set_attribute, work.
  py_unfold. simpl. rewrite Hen, Hc. simpl. rewrite Hc. simpl.
  rewrite Hstart. simpl. rewrite !Hset. simpl.
  match goal with
  | |- context [for_each kw ?f ?w1] =>
      destruct (for_each_rel f (fun (_ : string * pyobj) ev => ev <> EvWork) kw)
        with (w := w1) as (attrs & Hrel & Hevs)
  end.
  { eapply Forall_impl; [exact Hkw |]. intros kv [s Hs]. simpl.
    eexists. split; [| intros w1; rewrite Hs, Hset; reflexivity]. discriminate. }
  rewrite Hevs. simpl. rewrite Hexit. simpl. rewrite He. simpl.
  exists ([EvSpanEnter c ("tool-" +:+ n);
           EvSetAttribute "tool.name" (PStr n);
           EvSetAttribute "tool.call_number" (PInt (tool_call_count (self w) + 1))]
          ++ attrs).
  split.
  - intros H. simpl in H. destruct H as [H | [H | [H | H]]]; try discriminate H.
    clear -Hrel H. induction Hrel as [| kv ev l l' Hne _ IH]; simpl in H; [contradiction |].
    destruct H as [H | H]; [congruence | auto].
  - f_equal. f_equal. rewrite <- !app_assoc. reflexivity.
Qed.

Lemma trace_tool_span_close_failure_witness :
  fst (with_trace_tool
         {| ENABLE_AGENT_LIGHTNING := Some "true";
            AGENT_LIGHTNING_AVAILABLE := true;
            OtelTracer_new := None;
            InMemoryLightningStore_new := None;
            time_time := 1000%float;
            store_start_rollout := inr {| rollout_id := "ro-1"; attempt_id := "at-1" |};
            lifespan_enter := None;
            trace_context_aenter := inr (TraceCtx 1);
            ctx_aexit := None;
            start_as_current_span := None;
            span_set_attribute := fun _ _ => None;
            span_exit := fun _ => inl (RuntimeError "exporter down");
            emit_reward := fun _ => None |}
         "read" [] (work (inr (PInt 7))) (Scenarios.at_start Scenarios.in_session))
    = inl (RuntimeError "generator didn't stop").
Proof.
  match goal with
  | |- fst (with_trace_tool ?E ?n ?kw ?b ?w) = _ =>
      destruct (trace_tool_span_close_failure E n kw w (TraceCtx 1) (PInt 7)
                  (RuntimeError "exporter down") eq_refl eq_refl eq_refl
                  (fun _ _ => eq_refl) (List.Forall_nil _) eq_refl eq_refl) as (evs & _ & H)
  end.
  rewrite H. reflexivity.
Defined.

(** *** More on the reward *)

(** [emit_task_reward] changes no attribute of the tracer. *)
Lemma emit_task_reward_keeps_self E su tu et d ur w :
  self (snd (emit_task_reward E su tu et d ur w)) = self w.
Proof.
  destruct w as [[en tr st ro c t0 n] evs].
  unfold emit_task_reward. py_unfold. simpl.
  destruct en; simpl; [| reflexivity].
  destruct c as [c |]; simpl; [| reflexivity].
  repeat break_match; reflexivity.
Qed.

(** [emit_task_reward] lets no [Exception] escape. *)
Lemma emit_task_reward_catches E su tu et d ur w :
  (forall r e, emit_reward E r = Some e -> is_Exception e = true) ->
  fst (emit_task_reward E su tu et d ur w) = inr tt.
Proof.
  intros Hemit. destruct w as [[en tr st ro c t0 n] evs].
  unfold emit_task_reward. py_unfold. simpl.
  destruct en; simpl; [| reflexivity].
  destruct c as [c |]; simpl; [| reflexivity].
  unfold float_of_int.
  repeat break_match; try reflexivity;
    repeat match goal with
           | H : emit_reward E _ = Some _ |- _ => apply Hemit in H
           | H : inl _ = inl _ |- _ => injection H as <-
           | H : Some _ = Some _ |- _ => injection H as <-
           end;
    try discriminate; try congruence.
Qed.

(** X10. [emit_task_reward] never changes an attribute of the tracer, in
    any state and whatever the backend answers, and it lets no [Exception]
    escape: a failing [emit_reward], a rating too large for a float and a
    failing log line all end in the handler. *)
Theorem emit_task_reward_is_contained (E : env) su tu et d ur (w : world) :
  self (snd (emit_task_reward E su tu et d ur w)) = self w /\
  ((forall r e, emit_reward E r = Some e -> is_Exception e = true) ->
   fst (emit_task_reward E su tu et d ur w) = inr tt).
Proof.
  split.
  - apply emit_task_reward_keeps_self.
  - apply emit_task_reward_catches.
Qed.

Lemma emit_task_reward_is_contained_witness :
  fst (emit_task_reward Scenarios.on_env true None None None (Some (2 ^ 1100))
         (Scenarios.at_start Scenarios.in_session)) = inr tt /\
  rewards (trace (snd (emit_task_reward Scenarios.on_env true None None None
                         (Some (2 ^ 1100))
                         (Scenarios.at_start Scenarios.in_session)))) = [].
Proof.
  split.
  - apply (emit_task_reward_is_contained Scenarios.on_env true None None None
             (Some (2 ^ 1100)) (Scenarios.at_start Scenarios.in_session)).
    intros r e H. discriminate H.
  - vm_compute. reflexivity.
Defined.

(** X11. In a session, with a rating from 1 to 5 or none, exactly one
    reward is handed to [emit_reward] per call, and it lies between 0.6 and
    1.6 for a successful task and between -0.9 and 0.1 for a failed one
    (the bounds are the binary64 values nearest to these decimals): every
    successful task scores above every failed one, and 1.6 is the largest
    reward the formula gives. *)
Theorem reward_range (E : env) su tu et d ur (w : world) (c : trace_ctx) :
  enabled (self w) = true ->
  current_tracer_ctx (self w) = Some c ->
  (forall z, ur = Some z -> 1 <= z <= 5) ->
  exists r,
    rewards (trace (snd (emit_task_reward E su tu et d ur w))) = rewards (trace w) ++ [r] /\
    (su = true -> PrimFloat.leb f_0_6 r = true /\ PrimFloat.leb r f_1_6 = true) /\
    (su = false -> PrimFloat.leb f_minus_0_9 r = true /\ PrimFloat.leb r f_0_1 = true).
Proof.
  intros Hen Hc Hur.
  destruct w as [[en tr st ro cx t0 n] evs]. simpl in Hen, Hc. subst en cx.
  assert (Hz : ur = None \/ ur = Some 1 \/ ur = Some 2 \/ ur = Some 3 \/
               ur = Some 4 \/ ur = Some 5).
  { destruct ur as [z |]; [| now left]. right.
    specialize (Hur z eq_refl).
    assert (z = 1 \/ z = 2 \/ z = 3 \/ z = 4 \/ z = 5) as [-> | [-> | [-> | [-> | ->]]]]
      by lia; auto 10. }
  clear Hur.
  unfold emit_task_reward. py_unfold. simpl.
  destruct Hz as [-> | [-> | [-> | [-> | [-> | ->]]]]]; simpl;
    repeat match goal with
           | |- context [float_of_int ?a] =>
               let v := eval vm_compute in (float_of_int a) in
               change (float_of_int a) with v; simpl
           end;
    destruct su; simpl;
    (destruct d as [x |]; simpl;
     [| destruct t0 as [f |]; simpl; [destruct (truthy_float f); simpl |]]);
    repeat break_match; rewrite ?rewards_app; simpl; rewrite ?app_nil_r;
    (eexists; split; [reflexivity |]);
    (split; intros Hs; [try discriminate Hs | try discriminate Hs]);
    split; vm_compute; reflexivity.
Qed.

Lemma reward_range_witness :
  exists r,
    rewards (trace (snd (emit_task_reward Scenarios.on_env true (Some 400) (Some 500)
                           (Some 10%float) (Some 5)
                           (Scenarios.at_start Scenarios.in_session)))) = [r] /\
    PrimFloat.leb f_0_6 r = true /\ PrimFloat.leb r f_1_6 = true /\
    PrimFloat.eqb r f_1_6 = true.
Proof.
  destruct (reward_range Scenarios.on_env true (Some 400) (Some 500) (Some 10%float)
              (Some 5) (Scenarios.at_start Scenarios.in_session) (TraceCtx 1)
              eq_refl eq_refl) as (r & Hr & Hs & _).
  { intros z Hz. injection Hz as <-. lia. }
  exists r. split; [exact Hr |].
  destruct (Hs eq_refl) as [Hlo Hhi]. split; [exact Hlo |]. split; [exact Hhi |].
  vm_compute in Hr. injection Hr as <-. reflexivity.
Defined.

(** *** Statistics, the rollout input, the shared instance *)

(** X12. [get_session_stats] follows the session.  After a
    [start_session] on a working backend (at a clock reading other than
    zero) it reports the rollout's id, the time elapsed since that start
    and a tool count of zero, without changing the tracer; after the
    session has been ended it reports the empty dict again. *)
Theorem session_stats_follow_the_session (E1 E2 E3 : env) m md (w : world) r c n :
  enabled (self w) = true ->
  tracer (self w) = Some tt ->
  store (self w) = Some tt ->
  store_start_rollout E1 = inr r ->
  lifespan_enter E1 = None ->
  int_of_float (time_time E1) = inr n ->
  trace_context_aenter E1 = inr c ->
  truthy_float (time_time E1) = true ->
  ctx_aexit E3 = None ->
  let w1 := snd (start_session E1 m md w) in
  let w2 := snd (end_session E3 w1) in
  get_session_stats E2 w1 =
    (inr (Some {| stats_enabled := true;
                  stats_rollout_id := Some (rollout_id r);
                  stats_duration_seconds := PrimFloat.sub (time_time E2) (time_time E1);
                  stats_tool_call_count := 0 |}), w1) /\
  get_session_stats E2 w2 = (inr None, w2).
Proof.
  intros Hen Htr Hst Hr Hl Hn Hc Ht Hx. cbv zeta.
  destruct (start_session_success E1 m md w r c n Hen Hst Htr Hr Hl Hn Hc)
    as (_ & Hen1 & Hc1 & Hro1 & Ht1 & Hn1).
  set (w1 := snd (start_session E1 m md w)) in *.
  split.
  - unfold get_session_stats. py_unfold. simpl.
    rewrite Hen1, Ht1. simpl. rewrite Ht. simpl. now rewrite Hro1, Hn1.
  - destruct (end_session_resets E3 w1 Hen1 (or_intror Hx)) as (_ & Hen2 & (_ & _ & Ht2) & _).
    unfold get_session_stats. py_unfold. simpl. rewrite Hen2, Ht2. reflexivity.
Qed.

Lemma session_stats_follow_the_session_witness :
  let w1 := snd (start_session Scenarios.on_env (PStr "task") None
                   (Scenarios.at_start Scenarios.fresh)) in
  fst (get_session_stats (Scenarios.healthy (Some "true") 1012.5%float) w1) =
    inr (Some {| stats_enabled := true;
                 stats_rollout_id := Some "ro-1";
                 stats_duration_seconds := 12.5%float;
                 stats_tool_call_count := 0 |}) /\
  fst (get_session_stats Scenarios.on_env (snd (end_session Scenarios.on_env w1))) = inr None.
Proof.
  cbv zeta.
  destruct (session_stats_follow_the_session Scenarios.on_env
              (Scenarios.healthy (Some "true") 1012.5%float) Scenarios.on_env
              (PStr "task") None (Scenarios.at_start Scenarios.fresh)
              {| rollout_id := "ro-1"; attempt_id := "at-1" |} (TraceCtx 1) 1000
              eq_refl eq_refl eq_refl eq_refl eq_refl eq_refl eq_refl eq_refl eq_refl)
    as [H1 _].
  destruct (session_stats_follow_the_session Scenarios.on_env
              Scenarios.on_env Scenarios.on_env
              (PStr "task") None (Scenarios.at_start Scenarios.fresh)
              {| rollout_id := "ro-1"; attempt_id := "at-1" |} (TraceCtx 1) 1000
              eq_refl eq_refl eq_refl eq_refl eq_refl eq_refl eq_refl eq_refl eq_refl)
    as [_ H2].
  split.
  - rewrite H1. reflexivity.
  - rewrite H2. reflexivity.
Defined.

Lemma dict_get_set d k v k' :
  dict_get (dict_set d k v) k' = if String.eqb k k' then Some v else dict_get d k'.
Proof.
  induction d as [| [k0 v0] d IH]; simpl.
  - reflexivity.
  - destruct (String.eqb_spec k0 k) as [-> | Hne]; simpl.
    + destruct (String.eqb k k'); reflexivity.
    + rewrite IH. destruct (String.eqb_spec k0 k') as [-> | Hne'].
      * destruct (String.eqb_spec k k'); [congruence | reflexivity].
      * reflexivity.
Qed.

(** Looking a key up after [d.update(other)], for [other] without repeated
    keys: [other]'s value if it has the key, else [d]'s. *)
Lemma dict_get_update other :
  NoDup (map fst other) ->
  forall d k,
    dict_get (dict_update d other) k =
      match dict_get other k with
      | Some v => Some v
      | None => dict_get d k
      end.
Proof.
  unfold dict_update. induction other as [| [k1 v1] other IH]; intros Hnd d k; simpl.
  - reflexivity.
  - apply NoDup_cons in Hnd as [Hnotin Hnd].
    rewrite (IH Hnd). rewrite dict_get_set.
    destruct (String.eqb_spec k1 k) as [-> | Hne]; [| reflexivity].
    assert (Hnone : dict_get other k = None).
    { clear -Hnotin. induction other as [| [k2 v2] other IH]; simpl; [reflexivity |].
      destruct (String.eqb_spec k2 k) as [-> | Hne].
      - exfalso. apply Hnotin. simpl. now left.
      - apply IH. intros H. apply Hnotin. simpl. now right. }
    now rewrite Hnone.
Qed.

(** The dict that [start_session] builds for the rollout. *)
Lemma merged_input_lookup (m : pyval) (t : float) (md : option dict) (k : string) :
  NoDup (map fst (default [] md)) ->
  dict_get (if truthy_dict md
            then dict_update [("user_message", m); ("timestamp", PFloat t)] (default [] md)
            else [("user_message", m); ("timestamp", PFloat t)]) k =
    match dict_get (default [] md) k with
    | Some v => Some v
    | None =>
        if String.eqb "user_message" k then Some m
        else if String.eqb "timestamp" k then Some (PFloat t)
        else None
    end.
Proof.
  intros Hnd. destruct md as [[| kv md] |]; simpl truthy_dict; cbv iota.
  - reflexivity.
  - now rewrite dict_get_update.
  - reflexivity.
Qed.

(** The first backend call of [start_session]. *)
Lemma start_session_first_call (E : env) m md (w : world) :
  enabled (self w) = true ->
  store (self w) = Some tt ->
  exists rest,
    trace (snd (start_session E m md w)) =
      trace w ++
      EvStartRollout
        (if truthy_dict md
         then dict_update [("user_message", m); ("timestamp", PFloat (time_time E))]
                (default [] md)
         else [("user_message", m); ("timestamp", PFloat (time_time E))]) :: rest.
Proof.
  intros Hen Hst.
  unfold start_session. py_unfold. simpl. rewrite Hen. simpl. rewrite Hst. simpl.
  repeat break_match; simpl; eexists; rewrite <- ?app_assoc; simpl; reflexivity.
Qed.

(** X13. The input of the rollout.  On an enabled tracer the first thing
    [start_session] does to the backend is [store.start_rollout(input)],
    and [input] merges the metadata over the message and the timestamp: a
    key of the metadata has the metadata's value, even [user_message] and
    [timestamp]; otherwise [user_message] is the message, [timestamp] the
    clock reading, and no other key is present. *)
Theorem rollout_input_merges_metadata (E : env) m md (w : world) :
  enabled (self w) = true ->
  store (self w) = Some tt ->
  NoDup (map fst (default [] md)) ->
  exists input rest,
    trace (snd (start_session E m md w)) = trace w ++ EvStartRollout input :: rest /\
    forall k,
      dict_get input k =
        match dict_get (default [] md) k with
        | Some v => Some v
        | None =>
            if String.eqb "user_message" k then Some m
            else if String.eqb "timestamp" k then Some (PFloat (time_time E))
            else None
        end.
Proof.
  intros Hen Hst Hnd.
  destruct (start_session_first_call E m md w Hen Hst) as [rest Hrest].
  eexists. exists rest. split; [exact Hrest |].
  intros k. now apply merged_input_lookup.
Qed.

Lemma rollout_input_merges_metadata_witness :
  exists input rest,
    trace (snd (start_session Scenarios.on_env (PStr "hello")
                  (Some [("channel", PStr "telegram"); ("user_message", PStr "other")])
                  (Scenarios.at_start Scenarios.fresh)))
      = EvStartRollout input :: rest /\
    dict_get input "user_message" = Some (PStr "other") /\
    dict_get input "channel" = Some (PStr "telegram") /\
    dict_get input "timestamp" = Some (PFloat 1000%float).
Proof.
  destruct (rollout_input_merges_metadata Scenarios.on_env (PStr "hello")
              (Some [("channel", PStr "telegram"); ("user_message", PStr "other")])
              (Scenarios.at_start Scenarios.fresh) eq_refl eq_refl)
    as (input & rest & Htr & Hget).
  { simpl. apply NoDup_cons_2; [| apply NoDup_singleton].
    intros H. apply list_elem_of_In in H. simpl in H.
    destruct H as [H | []]. discriminate H. }
  exists input, rest. split; [exact Htr |].
  rewrite !Hget. repeat split.
Defined.

(** X14. [get_tracer] builds the tracer at most once: after a call that
    returned, every later call returns that same tracer without running
    the constructor again, whatever the environment has become; a call in
    which the constructor raises leaves the global unset, so the next call
    tries again. *)
Theorem get_tracer_constructs_once (E1 E2 : env) (g g1 : globals) :
  (forall t, get_tracer E1 g = (inr t, g1) -> get_tracer E2 g1 = (inr t, g1)) /\
  (forall e, get_tracer E1 g = (inl e, g1) ->
     _global_tracer g = None /\ _global_tracer g1 = None).
Proof.
  unfold get_tracer. split.
  - intros t. destruct (_global_tracer g) as [t0 |] eqn:Hg.
    + intros H. injection H as <- <-. now rewrite Hg.
    + destruct (__init__ E1 _) as [[e | []] w1]; intros H; [discriminate H |].
      injection H as <- <-. reflexivity.
  - intros e. destruct (_global_tracer g) as [t0 |] eqn:Hg; [discriminate |].
    destruct (__init__ E1 _) as [[e1 | []] w1]; intros H; [| discriminate H].
    injection H as <- <-. split; reflexivity.
Qed.

Lemma get_tracer_constructs_once_witness :
  let g1 := snd (get_tracer Scenarios.on_env {| _global_tracer := None; gtrace := [] |}) in
  get_tracer (Scenarios.healthy None 0%float) g1 = (inr Scenarios.fresh, g1).
Proof.
  cbv zeta.
  apply (get_tracer_constructs_once Scenarios.on_env (Scenarios.healthy None 0%float)
           {| _global_tracer := None; gtrace := [] |}).
  reflexivity.
Defined.

(** *** More on the bridge *)

Lemma tracing_off_enabled b : tracing_off b = negb (tracer_enabled b).
Proof. unfold tracing_off, tracer_enabled. now destruct (g_tracer b). Qed.

(** What POST /session/start does once the tracer exists and the metadata
    is an object. *)
Lemma handle_session_start_runs E data b t md :
  g_tracer b = Some t ->
  raises_only_Exceptions (tenv E) ->
  default (Some []) (start_metadata data) = Some md ->
  let sid := default (Some ("session-" +:+ now_timestamp E)) (start_session_id data) in
  let msg := default (PStr "") (start_message data) in
  let w1 := snd (start_session (tenv E) msg
                   (Some (dict_set md "bridge_session_id" (key_val sid)))
                   {| self := t; trace := backend b |}) in
  handle_session_start E data b =
    (inr (json_response [("success", JBool true);
                         ("session_id", jstr sid);
                         ("enabled", JBool (enabled (self w1)))]),
     {| g_tracer := Some (self w1);
        current_sessions :=
          <[sid := {| started_at := now_isoformat E; message := msg; tool_count := 0 |}]>
            (current_sessions b);
        backend := trace w1 ++ [EvLog INFO "Started session"] |}).
Proof.
  intros Ht Hpol Hmd. cbv zeta.
  pose proof (start_session_catches (tenv E) (default (PStr "") (start_message data))
                (Some (dict_set md "bridge_session_id"
                         (key_val (default (Some ("session-" +:+ now_timestamp E))
                                     (start_session_id data)))))
                {| self := t; trace := backend b |} Hpol) as Hok.
  unfold handle_session_start, try_except, bind at 1, get.
  rewrite Ht. simpl is_None. cbv iota.
  unfold bind at 1, ret at 1. rewrite Hmd. unfold bind at 1, ret at 1.
  unfold bind at 1, on_tracer at 1. rewrite Ht.
  destruct (start_session _ _ _ _) as [[e | []] w1]; simpl in Hok; [discriminate Hok |].
  unfold bind, modify, blog, on_tracer, getattr, get, ret, set_sessions.
  cbn [g_tracer current_sessions backend self trace fst snd]. reflexivity.
Qed.

(** X15. POST /session/start registers the session whatever becomes of
    tracing.  Once the tracer exists, for a body whose metadata is an
    object or absent, the answer is success with the session id (the one
    given, else [session-<timestamp>]) and the tracer's [enabled] flag as
    it is after the call; the registry holds a new entry under that id with
    [tool_count] zero, replacing any entry that was there, and every other
    entry is untouched. *)
Theorem session_start_always_registers (E : benv) (data : start_request) (b : bridge)
    (t : OpenClawLightningTracer) (md : dict) :
  g_tracer b = Some t ->
  raises_only_Exceptions (tenv E) ->
  default (Some []) (start_metadata data) = Some md ->
  let sid := default (Some ("session-" +:+ now_timestamp E)) (start_session_id data) in
  let r := handle_session_start E data b in
  fst r = inr (json_response [("success", JBool true);
                              ("session_id", jstr sid);
                              ("enabled", JBool (tracer_enabled (snd r)))]) /\
  current_sessions (snd r) !! sid =
    Some {| started_at := now_isoformat E;
            message := default (PStr "") (start_message data);
            tool_count := 0 |} /\
  (forall k, k <> sid -> current_sessions (snd r) !! k = current_sessions b !! k).
Proof.
  intros Ht Hpol Hmd. cbv zeta.
  rewrite (handle_session_start_runs E data b t md Ht Hpol Hmd).
  cbn [fst snd current_sessions tracer_enabled g_tracer].
  split; [reflexivity |]. split.
  - apply lookup_insert_eq.
  - intros k Hk. now apply lookup_insert_ne.
Qed.

(** X16. A body whose [metadata] is [null] is answered 500 with the
    [TypeError]'s text: the dict display [{**metadata, ...}] raises before
    the tracer is called, so no session is registered and the tracer is
    not touched. *)
Theorem session_start_null_metadata (E : benv) (data : start_request) (b : bridge)
    (t : OpenClawLightningTracer) :
  g_tracer b = Some t ->
  start_metadata data = Some None ->
  handle_session_start E data b =
    (inr (error_response (TypeError "'NoneType' object is not a mapping")),
     {| g_tracer := Some t;
        current_sessions := current_sessions b;
        backend := backend b ++ [EvLog ERROR "Error starting session"] |}).
Proof.
  intros Ht Hmd.
  unfold handle_session_start, try_except, bind at 1, get.
  rewrite Ht, Hmd. simpl.
  unfold bind, raise, blog, modify, ret. simpl. now rewrite Ht.
Qed.

Lemma session_start_null_metadata_witness :
  let b := {| g_tracer := Some Scenarios.fresh; current_sessions := ∅; backend := [] |} in
  let r := handle_session_start Scenarios.flag_off
             {| start_message := Some (PStr "hi"); start_session_id := None;
                start_metadata := Some None |} b in
  fst r = inr {| status := 500;
                 body := [("success", JBool false);
                          ("error", JStr "'NoneType' object is not a mapping")] |} /\
  current_sessions (snd r) = ∅.
Proof.
  cbv zeta.
  rewrite (session_start_null_metadata Scenarios.flag_off
             {| start_message := Some (PStr "hi"); start_session_id := None;
                start_metadata := Some None |}
             {| g_tracer := Some Scenarios.fresh; current_sessions := ∅; backend := [] |}
             Scenarios.fresh eq_refl eq_refl).
  split; reflexivity.
Defined.

Lemma session_start_always_registers_witness :
  let b := {| g_tracer := Some Scenarios.fresh;
              current_sessions :=
                {[Some "s-1" := {| started_at := "2023-11-14T22:00:00";
                                   message := PStr "old"; tool_count := 5 |}]};
              backend := [] |} in
  let E := {| tenv := Scenarios.rollout_fails;
              now_timestamp := "1700000000.5";
              now_isoformat := "2023-11-14T22:13:20.500000" |} in
  let r := handle_session_start E
             {| start_message := Some (PStr "new"); start_session_id := Some (Some "s-1");
                start_metadata := None |} b in
  fst r = inr (json_response [("success", JBool true);
                              ("session_id", JStr "s-1");
                              ("enabled", JBool false)]) /\
  current_sessions (snd r) !! Some "s-1" =
    Some {| started_at := "2023-11-14T22:13:20.500000";
            message := PStr "new"; tool_count := 0 |}.
Proof.
  cbv zeta.
  assert (Hpol : raises_only_Exceptions Scenarios.rollout_fails).
  { repeat split; intros; try discriminate.
    match goal with H : _ = inl _ |- _ => injection H as <- end. reflexivity. }
  destruct (session_start_always_registers
              {| tenv := Scenarios.rollout_fails;
                 now_timestamp := "1700000000.5";
                 now_isoformat := "2023-11-14T22:13:20.500000" |}
              {| start_message := Some (PStr "new"); start_session_id := Some (Some "s-1");
                 start_metadata := None |}
              {| g_tracer := Some Scenarios.fresh;
                 current_sessions :=
                   {[Some "s-1" := {| started_at := "2023-11-14T22:00:00";
                                      message := PStr "old"; tool_count := 5 |}]};
                 backend := [] |}
              Scenarios.fresh [] eq_refl Hpol eq_refl) as (H1 & H2 & _).
  split; [| exact H2].
  rewrite H1. reflexivity.
Defined.

(** Requests that find tracing off change nothing but the registry. *)
Lemma handle_tool_trace_tracing_off E data b :
  tracing_off b = true ->
  handle_tool_trace E data b =
    (inr (json_response [("success", JBool true);
                         ("traced", JBool false);
                         ("reason", JStr "tracing disabled")]), b).
Proof.
  intros H. unfold handle_tool_trace, try_except, bind at 1, get. now rewrite H.
Qed.

Lemma handle_session_reward_tracing_off E data b :
  tracing_off b = true ->
  handle_session_reward E data b =
    (inr (json_response [("success", JBool true);
                         ("rewarded", JBool false);
                         ("reason", JStr "tracing disabled")]), b).
Proof.
  intros H. unfold handle_session_reward, try_except, bind at 1, get. now rewrite H.
Qed.

Lemma handle_session_start_constructor_raises E data b :
  g_tracer b = None ->
  lower (default "false" (ENABLE_AGENT_LIGHTNING (tenv E))) = "true" ->
  AGENT_LIGHTNING_AVAILABLE (tenv E) = false ->
  handle_session_start E data b =
    (inr (error_response
            (AttributeError "'OpenClawLightningTracer' object has no attribute 'logger'")),
     {| g_tracer := None;
        current_sessions := current_sessions b;
        backend := backend b ++ [EvLog ERROR "Error starting session"] |}).
Proof.
  intros Hnone Hflag Hlib.
  unfold handle_session_start, try_except, bind at 1, get.
  rewrite Hnone. simpl is_None. cbv iota.
  unfold bind at 1, construct, __init__, _check_enabled. py_unfold.
  rewrite Hflag, Hlib. simpl. unfold blog, modify. simpl. now rewrite Hnone.
Qed.

(** X17. With the flag on and the library missing the service never gets
    a tracer.  Every POST /session/start is answered 500 with the
    constructor's [AttributeError] and registers nothing, and after any
    sequence of requests of any kind the global tracer is still unset. *)
Theorem tracer_never_built_without_library :
  (forall E data b,
     g_tracer b = None ->
     lower (default "false" (ENABLE_AGENT_LIGHTNING (tenv E))) = "true" ->
     AGENT_LIGHTNING_AVAILABLE (tenv E) = false ->
     fst (handle_session_start E data b) =
       inr (error_response
              (AttributeError "'OpenClawLightningTracer' object has no attribute 'logger'")) /\
     current_sessions (snd (handle_session_start E data b)) = current_sessions b) /\
  (forall reqs b,
     g_tracer b = None ->
     Forall (fun Er : benv * request =>
               lower (default "false" (ENABLE_AGENT_LIGHTNING (tenv (fst Er)))) = "true" /\
               AGENT_LIGHTNING_AVAILABLE (tenv (fst Er)) = false) reqs ->
     g_tracer (serve reqs b) = None).
Proof.
  split.
  - intros E data b Hnone Hflag Hlib.
    rewrite (handle_session_start_constructor_raises E data b Hnone Hflag Hlib).
    split; reflexivity.
  - intros reqs b Hnone Hall. revert b Hnone.
    induction Hall as [| [E r] reqs [Hflag Hlib] _ IH]; intros b Hnone; simpl.
    + exact Hnone.
    + apply IH. simpl in Hflag, Hlib.
      assert (Hoff : tracing_off b = true) by (unfold tracing_off; now rewrite Hnone).
      assert (Hoff' : tracer_enabled b = false) by (unfold tracer_enabled; now rewrite Hnone).
      destruct r as [d | d | d | d | |]; simpl.
      * now rewrite (handle_session_start_constructor_raises E d b Hnone Hflag Hlib).
      * now rewrite handle_tool_trace_tracing_off.
      * now rewrite handle_session_reward_tracing_off.
      * now rewrite handle_session_end_tracing_off.
      * exact Hnone.
      * now rewrite handle_stats_tracing_off.
Qed.

Lemma tracer_never_built_without_library_witness :
  let E := {| tenv := {| ENABLE_AGENT_LIGHTNING := Some "true";
                         AGENT_LIGHTNING_AVAILABLE := false;
                         OtelTracer_new := None;
                         InMemoryLightningStore_new := None;
                         time_time := 0%float;
                         store_start_rollout := inl (RuntimeError "unused");
                         lifespan_enter := None;
                         trace_context_aenter := inl (RuntimeError "unused");
                         ctx_aexit := None;
                         start_as_current_span := None;
                         span_set_attribute := fun _ _ => None;
                         span_exit := fun _ => inr false;
                         emit_reward := fun _ => None |};
              now_timestamp := "1700000000.5";
              now_isoformat := "2023-11-14T22:13:20.500000" |} in
  g_tracer (serve [(E, POST_session_start Scenarios.hi);
                   (E, GET_health);
                   (E, POST_session_start Scenarios.hi)] initial) = None.
Proof.
  cbv zeta.
  apply (proj2 tracer_never_built_without_library); [reflexivity |].
  repeat constructor.
Defined.

(** What POST /session/end does when tracing is on. *)
Lemma handle_session_end_enabled E data b t :
  g_tracer b = Some t ->
  enabled t = true ->
  (forall e, ctx_aexit (tenv E) = Some e -> is_Exception e = true) ->
  let w1 := snd (end_session (tenv E) {| self := t; trace := backend b |}) in
  handle_session_end E data b =
    (inr (json_response [("success", JBool true); ("ended", JBool true)]),
     {| g_tracer := Some (self w1);
        current_sessions := delete (end_session_id data) (current_sessions b);
        backend := trace w1 ++ [EvLog INFO "Ended session"] |}).
Proof.
  intros Ht Hen Hx. cbv zeta.
  pose proof (end_session_catches (tenv E) {| self := t; trace := backend b |} Hx) as Hok.
  unfold handle_session_end, try_except, bind at 1, get, tracing_off.
  rewrite Ht, Hen. cbn [negb].
  unfold bind at 1, on_tracer at 1. rewrite Ht.
  destruct (end_session _ _) as [[e | []] w1]; simpl in Hok; [discriminate Hok |].
  unfold bind, forget, modify, blog, ret, set_sessions.
  cbn [g_tracer current_sessions backend self trace fst snd].
  destruct (current_sessions b !! end_session_id data) as [s |] eqn:Hs;
    cbn [g_tracer current_sessions backend]; [reflexivity |].
  now rewrite delete_id by exact Hs.
Qed.

(** The registry that POST /session/end leaves. *)
Lemma handle_session_end_registry E data b :
  (forall e, ctx_aexit (tenv E) = Some e -> is_Exception e = true) ->
  current_sessions (snd (handle_session_end E data b))
    = delete (end_session_id data) (current_sessions b).
Proof.
  intros Hx. destruct (tracing_off b) eqn:Hoff.
  - now rewrite (handle_session_end_tracing_off E data b Hoff).
  - unfold tracing_off in Hoff. destruct (g_tracer b) as [t |] eqn:Ht; [| discriminate Hoff].
    apply negb_false_iff in Hoff.
    now rewrite (handle_session_end_enabled E data b t Ht Hoff Hx).
Qed.

(** X18. POST /session/end always removes the session.  Whether tracing is
    on or off, and whether or not the id is registered, the answer is
    success, [ended] tells whether the tracer was enabled, and the registry
    afterwards is the registry before without that id; an unknown id is not
    an error. *)
Theorem session_end_always_removes (E : benv) (data : end_request) (b : bridge) :
  (forall e, ctx_aexit (tenv E) = Some e -> is_Exception e = true) ->
  let r := handle_session_end E data b in
  (exists resp,
     fst r = inr resp /\ status resp = 200%nat /\
     field resp "success" = Some (JBool true) /\
     field resp "ended" = Some (JBool (tracer_enabled b))) /\
  current_sessions (snd r) = delete (end_session_id data) (current_sessions b).
Proof.
  intros Hx. cbv zeta.
  destruct (tracing_off b) eqn:Hoff.
  - rewrite (handle_session_end_tracing_off E data b Hoff).
    rewrite tracing_off_enabled in Hoff. apply negb_true_iff in Hoff. rewrite Hoff.
    split; [| reflexivity]. eexists. repeat split.
  - unfold tracing_off in Hoff. destruct (g_tracer b) as [t |] eqn:Ht; [| discriminate Hoff].
    apply negb_false_iff in Hoff.
    rewrite (handle_session_end_enabled E data b t Ht Hoff Hx).
    unfold tracer_enabled. rewrite Ht, Hoff.
    split; [| reflexivity]. eexists. repeat split.
Qed.

Lemma session_end_always_removes_witness :
  let b := {| g_tracer := Some Scenarios.in_session;
              current_sessions :=
                {[Some "s-1" := {| started_at := "2023-11-14T22:00:00";
                                   message := PStr "hi"; tool_count := 2 |}]};
              backend := [] |} in
  let E := {| tenv := Scenarios.close_fails;
              now_timestamp := "1700000000.5";
              now_isoformat := "2023-11-14T22:13:20.500000" |} in
  current_sessions (snd (handle_session_end E {| end_session_id := Some "s-1" |} b)) = ∅ /\
  current_sessions (snd (handle_session_end E {| end_session_id := None |} b))
    = current_sessions b.
Proof.
  cbv zeta.
  assert (Hx : forall e, ctx_aexit Scenarios.close_fails = Some e -> is_Exception e = true).
  { intros e H. injection H as <-. reflexivity. }
  split.
  - rewrite (proj2 (session_end_always_removes
                      {| tenv := Scenarios.close_fails;
                         now_timestamp := "1700000000.5";
                         now_isoformat := "2023-11-14T22:13:20.500000" |}
                      {| end_session_id := Some "s-1" |} _ Hx)).
    cbn [current_sessions end_session_id]. apply delete_singleton_eq.
  - rewrite (proj2 (session_end_always_removes
                      {| tenv := Scenarios.close_fails;
                         now_timestamp := "1700000000.5";
                         now_isoformat := "2023-11-14T22:13:20.500000" |}
                      {| end_session_id := None |} _ Hx)).
    cbn [current_sessions end_session_id]. now apply delete_id.
Defined.

(** X19. A session that is started and then ended leaves the registry as
    it was: if the id was not registered before, the registry after POST
    /session/start and POST /session/end with that id equals the registry
    before, whatever happened to tracing in between. *)
Theorem registry_round_trip (E1 E2 : benv) (data : start_request) (b : bridge)
    (t : OpenClawLightningTracer) (md : dict) :
  g_tracer b = Some t ->
  raises_only_Exceptions (tenv E1) ->
  raises_only_Exceptions (tenv E2) ->
  default (Some []) (start_metadata data) = Some md ->
  let sid := default (Some ("session-" +:+ now_timestamp E1)) (start_session_id data) in
  current_sessions b !! sid = None ->
  current_sessions
    (snd (handle_session_end E2 {| end_session_id := sid |}
            (snd (handle_session_start E1 data b))))
  = current_sessions b.
Proof.
  intros Ht Hpol1 Hpol2 Hmd. cbv zeta. intros Hfresh.
  destruct Hpol2 as (_ & _ & _ & Hx & _).
  rewrite (handle_session_end_registry E2 _ _ Hx).
  rewrite (handle_session_start_runs E1 data b t md Ht Hpol1 Hmd).
  cbn [snd current_sessions end_session_id].
  rewrite delete_insert_eq. now apply delete_id.
Qed.

Lemma registry_round_trip_witness :
  let b := {| g_tracer := Some Scenarios.fresh;
              current_sessions :=
                {[Some "s-1" := {| started_at := "2023-11-14T22:00:00";
                                   message := PStr "hi"; tool_count := 2 |}]};
              backend := [] |} in
  let E := {| tenv := Scenarios.on_env;
              now_timestamp := "1700000000.5";
              now_isoformat := "2023-11-14T22:13:20.500000" |} in
  current_sessions
    (snd (handle_session_end E {| end_session_id := Some "session-1700000000.5" |}
            (snd (handle_session_start E Scenarios.hi b))))
  = current_sessions b.
Proof.
  cbv zeta.
  assert (Hpol : raises_only_Exceptions Scenarios.on_env)
    by (repeat split; intros; discriminate).
  apply (registry_round_trip
           {| tenv := Scenarios.on_env;
              now_timestamp := "1700000000.5";
              now_isoformat := "2023-11-14T22:13:20.500000" |}
           {| tenv := Scenarios.on_env;
              now_timestamp := "1700000000.5";
              now_isoformat := "2023-11-14T22:13:20.500000" |}
           Scenarios.hi
           {| g_tracer := Some Scenarios.fresh;
              current_sessions :=
                {[Some "s-1" := {| started_at := "2023-11-14T22:00:00";
                                   message := PStr "hi"; tool_count := 2 |}]};
              backend := [] |}
           Scenarios.fresh [] eq_refl Hpol Hpol eq_refl).
  cbn [current_sessions]. apply lookup_singleton_ne. discriminate.
Defined.



(** What POST /session/reward does when tracing is on. *)
Lemma handle_session_reward_enabled E data b t :
  g_tracer b = Some t ->
  enabled t = true ->
  (forall r e, emit_reward (tenv E) r = Some e -> is_Exception e = true) ->
  let w1 := snd (emit_task_reward (tenv E)
                   (default false (reward_success data)) (reward_tokens_used data)
                   (reward_expected_tokens data) (reward_duration data) None
                   {| self := t; trace := backend b |}) in
  handle_session_reward E data b =
    (inr (json_response [("success", JBool true); ("rewarded", JBool true)]),
     {| g_tracer := Some t;
        current_sessions := current_sessions b;
        backend := trace w1 ++ [EvLog INFO "Reward emitted"] |}).
Proof.
  intros Ht Hen Hemit. cbv zeta.
  pose proof (emit_task_reward_keeps_self (tenv E)
                (default false (reward_success data)) (reward_tokens_used data)
                (reward_expected_tokens data) (reward_duration data) None
                {| self := t; trace := backend b |}) as Hself.
  pose proof (emit_task_reward_catches (tenv E)
                (default false (reward_success data)) (reward_tokens_used data)
                (reward_expected_tokens data) (reward_duration data) None
                {| self := t; trace := backend b |} Hemit) as Hok.
  unfold handle_session_reward, try_except, bind at 1, get, tracing_off.
  rewrite Ht, Hen. cbn [negb].
  unfold bind at 1, on_tracer at 1. rewrite Ht.
  destruct (emit_task_reward _ _ _ _ _ _ _) as [[e | []] w1];
    simpl in Hok, Hself; [discriminate Hok |].
  unfold bind, blog, modify, ret.
  cbn [g_tracer current_sessions backend self trace fst snd]. now rewrite Hself.
Qed.

(** X21. POST /session/reward with tracing on always answers
    [rewarded: true], and never passes a user rating.  The tracer's
    attributes and the registry are unchanged.  When no trace context is
    open (no session was started, or its context could not be opened) no
    reward reaches the backend although the answer says [rewarded: true];
    when one is open exactly one reward does, at least -0.5 and at most
    the float 1.0 + 0.1 + 0.1. *)
Theorem session_reward_reports_rewarded (E : benv) (data : reward_request) (b : bridge)
    (t : OpenClawLightningTracer) :
  g_tracer b = Some t ->
  enabled t = true ->
  (forall r e, emit_reward (tenv E) r = Some e -> is_Exception e = true) ->
  let res := handle_session_reward E data b in
  fst res = inr (json_response [("success", JBool true); ("rewarded", JBool true)]) /\
  g_tracer (snd res) = Some t /\
  current_sessions (snd res) = current_sessions b /\
  (current_tracer_ctx t = None -> rewards (backend (snd res)) = rewards (backend b)) /\
  (forall c, current_tracer_ctx t = Some c ->
     exists r, rewards (backend (snd res)) = rewards (backend b) ++ [r] /\
               PrimFloat.leb f_minus_0_5 r = true /\
               PrimFloat.leb r (PrimFloat.add (PrimFloat.add f_1_0 f_0_1) f_0_1) = true).
Proof.
  intros Ht Hen Hemit. cbv zeta.
  rewrite (handle_session_reward_enabled E data b t Ht Hen Hemit).
  cbn [fst snd g_tracer current_sessions backend].
  split; [reflexivity |]. split; [reflexivity |]. split; [reflexivity |].
  rewrite rewards_app. simpl (rewards [_]). rewrite app_nil_r.
  split.
  - intros Hc. unfold emit_task_reward. py_unfold. simpl. now rewrite Hen, Hc.
  - intros c Hc. destruct t as [en tr st ro cx t0 n]. simpl in Hen, Hc. subst en cx.
    unfold emit_task_reward. py_unfold. simpl.
    destruct (default false (reward_success data)); simpl;
      (destruct (reward_duration data) as [x |]; simpl;
       [| destruct t0 as [f |]; simpl; [destruct (truthy_float f); simpl |]]);
      repeat break_match; rewrite ?rewards_app; simpl; rewrite ?app_nil_r;
      (eexists; split; [reflexivity |]); split; vm_compute; reflexivity.
Qed.

Lemma session_reward_reports_rewarded_witness :
  let b := {| g_tracer := Some Scenarios.fresh; current_sessions := ∅; backend := [] |} in
  let res := handle_session_reward Scenarios.flag_off
               {| reward_session_id := Some "s-1"; reward_success := Some true;
                  reward_tokens_used := Some 400; reward_expected_tokens := Some 500;
                  reward_duration := Some 10%float |} b in
  fst res = inr (json_response [("success", JBool true); ("rewarded", JBool true)]) /\
  rewards (backend (snd res)) = [].
Proof.
  cbv zeta.
  destruct (session_reward_reports_rewarded Scenarios.flag_off
              {| reward_session_id := Some "s-1"; reward_success := Some true;
                 reward_tokens_used := Some 400; reward_expected_tokens := Some 500;
                 reward_duration := Some 10%float |}
              {| g_tracer := Some Scenarios.fresh; current_sessions := ∅; backend := [] |}
              Scenarios.fresh eq_refl eq_refl) as (H1 & _ & _ & H2 & _).
  { intros r e H. discriminate H. }
  split; [exact H1 | exact (H2 eq_refl)].
Defined.

(** What POST /session/start does to a tracer whose gate is closed:
    nothing. *)
Lemma handle_session_start_keeps_disabled_tracer E data b t :
  g_tracer b = Some t ->
  enabled t = false ->
  g_tracer (snd (handle_session_start E data b)) = Some t.
Proof.
  intros Ht Hen.
  unfold handle_session_start, try_except, bind at 1, get.
  rewrite Ht. simpl is_None. cbv iota. unfold bind at 1, ret at 1.
  destruct (default (Some []) (start_metadata data)) as [md |].
  - unfold bind at 1, ret at 1. unfold bind at 1, on_tracer at 1. rewrite Ht.
    rewrite start_session_gate_closed by exact Hen.
    unfold bind, modify, blog, on_tracer, getattr, get, ret, set_sessions.
    cbn [g_tracer current_sessions backend self trace fst snd]. reflexivity.
  - unfold bind, raise, blog, modify, ret. simpl. exact Ht.
Qed.

(** Once the tracer is disabled no request enables it or replaces it. *)
Lemma serve_keeps_disabled_tracer reqs b t :
  g_tracer b = Some t ->
  enabled t = false ->
  g_tracer (serve reqs b) = Some t.
Proof.
  intros Ht Hen. revert b Ht. induction reqs as [| [E r] reqs IH]; intros b Ht; simpl.
  - exact Ht.
  - apply IH.
    assert (Hoff : tracing_off b = true) by (unfold tracing_off; now rewrite Ht, Hen).
    assert (Hoff' : tracer_enabled b = false) by (unfold tracer_enabled; now rewrite Ht).
    destruct r as [d | d | d | d | |]; simpl.
    + now apply handle_session_start_keeps_disabled_tracer.
    + now rewrite handle_tool_trace_tracing_off.
    + now rewrite handle_session_reward_tracing_off.
    + now rewrite handle_session_end_tracing_off.
    + exact Ht.
    + now rewrite handle_stats_tracing_off.
Qed.

(** X22. One failed rollout start silences tracing for the whole service.
    When [store.start_rollout] raises an [Exception] during POST
    /session/start, the request is still answered success and the session
    is registered, but with [enabled: false]; from then on, whatever
    requests follow and whatever the backend does, the tracer stays
    disabled: tool traces are answered [traced: false], rewards
    [rewarded: false], and session ends [ended: false]. *)
Theorem failed_rollout_silences_the_service (E1 : benv) (data : start_request)
    (b : bridge) (t : OpenClawLightningTracer) (md : dict) (e : exn) :
  g_tracer b = Some t ->
  enabled t = true ->
  raises_only_Exceptions (tenv E1) ->
  default (Some []) (start_metadata data) = Some md ->
  store_start_rollout (tenv E1) = inl e ->
  let sid := default (Some ("session-" +:+ now_timestamp E1)) (start_session_id data) in
  let b1 := snd (handle_session_start E1 data b) in
  fst (handle_session_start E1 data b) =
    inr (json_response [("success", JBool true);
                        ("session_id", jstr sid);
                        ("enabled", JBool false)]) /\
  is_Some (current_sessions b1 !! sid) /\
  forall reqs,
    let b2 := serve reqs b1 in
    tracer_enabled b2 = false /\
    (forall E d, fst (handle_tool_trace E d b2) =
       inr (json_response [("success", JBool true);
                           ("traced", JBool false);
                           ("reason", JStr "tracing disabled")])) /\
    (forall E d, fst (handle_session_reward E d b2) =
       inr (json_response [("success", JBool true);
                           ("rewarded", JBool false);
                           ("reason", JStr "tracing disabled")])) /\
    (forall E d, fst (handle_session_end E d b2) =
       inr (json_response [("success", JBool true);
                           ("ended", JBool false);
                           ("reason", JStr "tracing disabled")])).
Proof.
  intros Ht Hen Hpol Hmd Hr. cbv zeta.
  pose proof Hpol as (Hexc & _).
  rewrite (handle_session_start_runs E1 data b t md Ht Hpol Hmd).
  match goal with
  | |- context [start_session ?E ?m ?d ?w] =>
      destruct (start_session_rollout_failure E m d w e Hen Hr (Hexc e Hr)) as [_ Hoff]
  end.
  cbn [fst snd]. rewrite Hoff.
  split; [reflexivity |]. split.
  { cbn [current_sessions]. rewrite lookup_insert_eq. eauto. }
  intros reqs.
  match goal with
  | |- context [serve reqs ?b1] =>
      pose proof (serve_keeps_disabled_tracer reqs b1 _ eq_refl Hoff) as Hb2
  end.
  match goal with
  | |- context [serve reqs ?b1] => set (b2 := serve reqs b1) in *
  end.
  assert (Hto : tracing_off b2 = true).
  { unfold tracing_off. rewrite Hb2. now rewrite Hoff. }
  split; [| split; [| split]].
  - unfold tracer_enabled. now rewrite Hb2.
  - intros E d. now rewrite handle_tool_trace_tracing_off.
  - intros E d. now rewrite handle_session_reward_tracing_off.
  - intros E d. now rewrite handle_session_end_tracing_off.
Qed.

Lemma failed_rollout_silences_the_service_witness :
  let b := {| g_tracer := Some Scenarios.fresh; current_sessions := ∅; backend := [] |} in
  let E1 := {| tenv := Scenarios.rollout_fails;
               now_timestamp := "1700000000.5";
               now_isoformat := "2023-11-14T22:13:20.500000" |} in
  let E2 := {| tenv := Scenarios.on_env;
               now_timestamp := "1700000100.5";
               now_isoformat := "2023-11-14T22:15:00.500000" |} in
  let b2 := serve [(E2, POST_session_start Scenarios.hi)]
              (snd (handle_session_start E1 Scenarios.hi b)) in
  tracer_enabled b2 = false /\
  fst (handle_tool_trace E2 {| trace_session_id := None; trace_tool_name := Some "read" |} b2)
    = inr (json_response [("success", JBool true);
                          ("traced", JBool false);
                          ("reason", JStr "tracing disabled")]).
Proof.
  cbv zeta.
  assert (Hpol : raises_only_Exceptions Scenarios.rollout_fails).
  { repeat split; intros; try discriminate.
    match goal with H : _ = inl _ |- _ => injection H as <- end. reflexivity. }
  destruct (failed_rollout_silences_the_service
              {| tenv := Scenarios.rollout_fails;
                 now_timestamp := "1700000000.5";
                 now_isoformat := "2023-11-14T22:13:20.500000" |}
              Scenarios.hi
              {| g_tracer := Some Scenarios.fresh; current_sessions := ∅; backend := [] |}
              Scenarios.fresh [] (RuntimeError "store unavailable")
              eq_refl eq_refl Hpol eq_refl eq_refl) as (_ & _ & H).
  destruct (H [({| tenv := Scenarios.on_env;
                   now_timestamp := "1700000100.5";
                   now_isoformat := "2023-11-14T22:15:00.500000" |},
                POST_session_start Scenarios.hi)]) as (H1 & H2 & _).
  split; [exact H1 | apply H2].
Defined.

Lemma dict_set_keys d k v k' :
  In k' (map fst (dict_set d k v)) -> k' = k \/ In k' (map fst d).
Proof.
  induction d as [| [k0 v0] d IH]; simpl.
  - intros [H | []]. now left.
  - destruct (String.eqb_spec k0 k) as [-> | Hne]; simpl.
    + intros [H | H]; auto.
    + intros [H | H]; auto. destruct (IH H); auto.
Qed.

Lemma dict_set_NoDup d k v :
  NoDup (map fst d) -> NoDup (map fst (dict_set d k v)).
Proof.
  induction d as [| [k0 v0] d IH]; simpl; intros Hnd.
  - apply NoDup_singleton.
  - apply NoDup_cons in Hnd as [Hnotin Hnd].
    destruct (String.eqb_spec k0 k) as [-> | Hne]; simpl.
    + now apply NoDup_cons_2.
    + apply NoDup_cons_2; [| now apply IH].
      intros H. apply list_elem_of_In in H. apply dict_set_keys in H as [H | H].
      * congruence.
      * apply Hnotin. now apply list_elem_of_In.
Qed.

(** X23. The rollout that POST /session/start begins is tied to the
    bridge's session: with tracing on, the first call to the backend is
    [store.start_rollout(input)] and [input["bridge_session_id"]] is the
    session id the request is answered with, also when the request's
    metadata had a [bridge_session_id] of its own. *)
Theorem rollout_carries_bridge_session_id (E : benv) (data : start_request) (b : bridge)
    (t : OpenClawLightningTracer) (md : dict) :
  g_tracer b = Some t ->
  enabled t = true ->
  store t = Some tt ->
  raises_only_Exceptions (tenv E) ->
  default (Some []) (start_metadata data) = Some md ->
  NoDup (map fst md) ->
  let sid := default (Some ("session-" +:+ now_timestamp E)) (start_session_id data) in
  exists input rest,
    backend (snd (handle_session_start E data b))
      = backend b ++ EvStartRollout input :: rest /\
    dict_get input "bridge_session_id" = Some (key_val sid).
Proof.
  intros Ht Hen Hst Hpol Hmd Hnd. cbv zeta.
  rewrite (handle_session_start_runs E data b t md Ht Hpol Hmd). cbn [snd backend].
  match goal with
  | |- context [start_session ?E0 ?m ?d ?w] =>
      destruct (start_session_first_call E0 m d w Hen Hst) as (rest & Htr)
  end.
  eexists. exists (rest ++ [EvLog INFO "Started session"]). split.
  - rewrite Htr. cbn [trace]. now rewrite <- app_assoc.
  - rewrite merged_input_lookup by (simpl; now apply dict_set_NoDup).
    simpl default. rewrite dict_get_set. now rewrite String.eqb_refl.
Qed.

Lemma rollout_carries_bridge_session_id_witness :
  let b := {| g_tracer := Some Scenarios.fresh; current_sessions := ∅; backend := [] |} in
  let E := {| tenv := Scenarios.on_env;
              now_timestamp := "1700000000.5";
              now_isoformat := "2023-11-14T22:13:20.500000" |} in
  exists input rest,
    backend (snd (handle_session_start E
                    {| start_message := Some (PStr "hi");
                       start_session_id := Some (Some "s-9");
                       start_metadata := Some (Some [("bridge_session_id", PStr "forged")]) |}
                    b))
      = EvStartRollout input :: rest /\
    dict_get input "bridge_session_id" = Some (PStr "s-9").
Proof.
  cbv zeta.
  assert (Hpol : raises_only_Exceptions Scenarios.on_env)
    by (repeat split; intros; discriminate).
  apply (rollout_carries_bridge_session_id
           {| tenv := Scenarios.on_env;
              now_timestamp := "1700000000.5";
              now_isoformat := "2023-11-14T22:13:20.500000" |}
           {| start_message := Some (PStr "hi");
              start_session_id := Some (Some "s-9");
              start_metadata := Some (Some [("bridge_session_id", PStr "forged")]) |}
           {| g_tracer := Some Scenarios.fresh; current_sessions := ∅; backend := [] |}
           Scenarios.fresh [("bridge_session_id", PStr "forged")]
           eq_refl eq_refl eq_refl Hpol eq_refl).
  simpl. apply NoDup_singleton.
Defined.

(** *** The documented integration *)

(** The steps of a session on a working backend, as equations. *)
Lemma start_session_runs E m md w r c n :
  enabled (self w) = true ->
  tracer (self w) = Some tt ->
  store (self w) = Some tt ->
  store_start_rollout E = inr r ->
  lifespan_enter E = None ->
  int_of_float (time_time E) = inr n ->
  trace_context_aenter E = inr c ->
  start_session E m md w =
    (inr tt,
     {| self := set_current_tracer_ctx (Some c)
                  (set_current_rollout (Some r)
                     (set_tool_call_count 0
                        (set_session_start_time (Some (time_time E)) (self w))));
        trace := trace w ++
                 [EvStartRollout
                    (if truthy_dict md
                     then dict_update [("user_message", m);
                                       ("timestamp", PFloat (time_time E))]
                            (default [] md)
                     else [("user_message", m); ("timestamp", PFloat (time_time E))]);
                  EvLifespanEnter;
                  EvTraceContextEnter ("openclaw-session-" +:+ pretty n)
                    (rollout_id r) (attempt_id r);
                  EvLog DEBUG "Started session tracking"] |}).
Proof.
  intros Hen Htr Hst Hr Hl Hn Hc. unfold start_session. py_unfold. simpl.
  rewrite Hen. simpl. rewrite Hst. simpl. rewrite Hr. simpl. rewrite Htr. simpl.
  rewrite Hl. simpl. rewrite Hn. simpl. rewrite Hc. simpl.
  now rewrite <- !app_assoc.
Qed.

Lemma end_session_runs E w c :
  enabled (self w) = true ->
  current_tracer_ctx (self w) = Some c ->
  ctx_aexit E = None ->
  end_session E w =
    (inr tt,
     {| self := set_tool_call_count 0
                  (set_session_start_time None
                     (set_current_rollout None
                        (set_current_tracer_ctx None (self w))));
        trace := trace w ++
                 EvCtxExit c ::
                 (if truthy_time (session_start_time (self w))
                  then [EvLog DEBUG "Session ended"] else []) |}).
Proof.
  intros Hen Hc Hx. unfold end_session. py_unfold. simpl.
  rewrite Hen. simpl. rewrite Hc. simpl. rewrite Hx. simpl.
  destruct (truthy_time _); simpl; rewrite <- ?app_assoc; reflexivity.
Qed.

(** The reward of the example's normal path. *)
Lemma example_reward E w c t0 :
  enabled (self w) = true ->
  current_tracer_ctx (self w) = Some c ->
  session_start_time (self w) = Some t0 ->
  (forall r, emit_reward E r = None) ->
  exists evs,
    emit_task_reward E true (Some 450) (Some 500) None None w =
      (inr tt, {| self := self w; trace := trace w ++ evs |}) /\
    (rewards evs = [PrimFloat.add f_1_0 f_0_1] \/
     rewards evs = [PrimFloat.add (PrimFloat.add f_1_0 f_0_1) f_0_1]) /\
    Forall (fun ev => match ev with EvEmitReward _ | EvLog _ _ => True | _ => False end) evs.
Proof.
  intros Hen Hc Ht Hemit. unfold emit_task_reward. py_unfold. simpl.
  rewrite Hen, Hc. simpl. rewrite Ht. simpl.
  destruct (truthy_float t0); simpl.
  - destruct (truthy_float (time_time E - t0) && (time_time E - t0 <? f_30_0)%float);
      simpl; rewrite Hemit; simpl; rewrite <- !app_assoc; simpl;
      eexists; (split; [reflexivity |]); (split; [auto | repeat constructor]).
  - rewrite Hemit. simpl. rewrite <- !app_assoc. simpl.
    eexists. split; [reflexivity |]. split; [auto | repeat constructor].
Qed.

(** X24. The documented integration on a working backend.  Whatever the
    clock reads at each step, [example_integration] returns normally; it
    builds the global tracer, opens one span per tool with call numbers 1,
    2 and 3, hands the backend exactly one reward, that of a successful
    task with the token bonus (1.0 + 0.1, and a further 0.1 when the time
    bonus is due), never the failure reward, and its [finally] ends the
    session: the context is closed and the tracer is left enabled and IDLE
    with its counter at zero. *)
Theorem example_integration_on_a_working_backend (clock : nat -> float) (n : Z) :
  int_of_float (clock 1%nat) = inr n ->
  let Es := fun i => Scenarios.healthy (Some "true") (clock i) in
  let res := example_integration Es {| _global_tracer := None; gtrace := [] |} in
  fst res = inr tt /\
  _global_tracer (snd res) = Some Scenarios.fresh /\
  omap (fun ev => match ev with EvSpanEnter _ name => Some name | _ => None end)
       (gtrace (snd res)) = ["tool-web_search"; "tool-read"; "tool-write"] /\
  omap (fun ev => match ev with
                  | EvSetAttribute key (PInt k) =>
                      if String.eqb key "tool.call_number" then Some k else None
                  | _ => None
                  end) (gtrace (snd res)) = [1; 2; 3] /\
  (rewards (gtrace (snd res)) = [PrimFloat.add f_1_0 f_0_1] \/
   rewards (gtrace (snd res)) = [PrimFloat.add (PrimFloat.add f_1_0 f_0_1) f_0_1]) /\
  omap (fun ev => match ev with EvCtxExit c => Some c | _ => None end)
       (gtrace (snd res)) = [TraceCtx 1].
Proof.
  intros Hn. cbv zeta.
  unfold example_integration, try_finally, try_except, bind, on_global.
  assert (H0 : get_tracer (Scenarios.healthy (Some "true") (clock 0%nat))
                 {| _global_tracer := None; gtrace := [] |}
               = (inr Scenarios.fresh,
                  {| _global_tracer := Some Scenarios.fresh;
                     gtrace := [EvLog INFO "Agent Lightning tracing enabled"] |}))
    by reflexivity.
  rewrite H0. cbn [_global_tracer gtrace].
  match goal with
  | |- context [start_session ?E ?m ?md ?w] =>
      rewrite (start_session_runs E m md w {| rollout_id := "ro-1"; attempt_id := "at-1" |}
                 (TraceCtx 1) n eq_refl eq_refl eq_refl eq_refl eq_refl Hn eq_refl)
  end.
  cbn [_global_tracer gtrace self trace].
  assert (Hkw : forall kw : list (string * string),
            Forall (fun kv : string * pyobj => exists s, py_str (snd kv) = inr s)
              (map (fun ks => (fst ks, {| py_str := inr (snd ks) |})) kw)).
  { intros kw. apply Forall_forall. intros kv Hin. apply list_elem_of_In in Hin.
    apply in_map_iff in Hin as (ks & <- & _). now exists (snd ks). }
  do 3 (match goal with
        | |- context [with_trace_tool ?E ?n ?kw (work (inr PNone)) ?w] =>
            rewrite (trace_tool_runs E n kw w (TraceCtx 1) PNone false
                       eq_refl eq_refl eq_refl (fun _ _ => eq_refl));
            [| first [ exact (Hkw [("query", "Agent Lightning")])
                     | exact (Hkw [("path", "README.md")])
                     | exact (Hkw [("path", "summary.md"); ("bytes", "2500")]) ]
             | reflexivity ]
        end;
        cbn [_global_tracer gtrace self trace]).
  match goal with
  | |- context [emit_task_reward ?E true (Some 450) (Some 500) None None ?w] =>
      destruct (example_reward E w (TraceCtx 1) (clock 1%nat) eq_refl eq_refl eq_refl
                  (fun _ => eq_refl)) as (evs & -> & Hrew & Hevs)
  end.
  cbn [_global_tracer gtrace self trace].
  match goal with
  | |- context [end_session ?E ?w] =>
      rewrite (end_session_runs E w (TraceCtx 1) eq_refl eq_refl eq_refl)
  end.
  cbn [_global_tracer gtrace self trace fst snd].
  assert (Ho : forall (B : Type) (f : event -> option B),
            (forall r, f (EvEmitReward r) = None) ->
            (forall l s, f (EvLog l s) = None) -> omap f evs = []).
  { intros B f Hf1 Hf2. clear -Hevs Hf1 Hf2.
    induction Hevs as [| ev evs Hev _ IH]; [reflexivity |].
    destruct ev; try contradiction; simpl; rewrite ?Hf1, ?Hf2; exact IH. }
  split; [reflexivity |]. split; [reflexivity |].
  unfold rewards in *. rewrite !omap_app.
  rewrite !(Ho _ _ (fun _ => eq_refl) (fun _ _ => eq_refl)).
  destruct (truthy_time _); simpl; rewrite ?app_nil_r; repeat split; exact Hrew.
Qed.

Lemma example_integration_on_a_working_backend_witness :
  let res := example_integration (fun i => Scenarios.healthy (Some "true") 1000%float)
               {| _global_tracer := None; gtrace := [] |} in
  fst res = inr tt /\ _global_tracer (snd res) = Some Scenarios.fresh.
Proof.
  cbv zeta.
  destruct (example_integration_on_a_working_backend (fun _ => 1000%float) 1000 eq_refl)
    as (H1 & H2 & _).
  split; [exact H1 | exact H2].
Defined.

